(** * Workflow builder front end: validators, chat service and graph editing

    A shallow embedding of the JavaScript sources of the workflow builder:
    - the zustand workflow store ([WorkflowStore], store/workflowStore.js),
    - the chat service ([ChatService], services/chatService.js),
    - the chat modal gate ([ChatModal], components/chat/ChatModal.jsx),
    - the stack builder page validator ([StackBuilder], pages/StackBuilder.jsx),
    - the workflow builder page ([WorkflowBuilder], pages/WorkflowBuilder.jsx).

    Arrays are [seq]s: [some] is [has], [every] is [all], [includes] is
    [\in], [length] is [size].  Numbers are IEEE binary64 floats. *)

From HB Require Import structures.
From Stdlib Require Import String Ascii PrimFloat.
From Stdlib Require DecimalString.
From mathcomp Require Import boot.

Set Implicit Arguments.
Unset Strict Implicit.
Unset Printing Implicit Defensive.

Open Scope string_scope.

(** ** JavaScript values *)

HB.instance Definition _ := hasDecEq.Build string String.eqb_spec.

Module Js.

(** A JavaScript value as far as the sources handle one.  [JInherited k] is
    the member named [k] that every object literal inherits from
    [Object.prototype] (a function, or the prototype itself for
    [__proto__]). *)
Inductive jsval : Type :=
| JUndefined
| JNull
| JBool (b : bool)
| JNum (x : float)
| JStr (s : string)
| JArr (items : seq jsval)
| JObj (props : seq (string * jsval))
| JInherited (key : string).

(** The property names an object literal inherits from [Object.prototype]. *)
Definition objectPrototypeKeys : seq string :=
  [:: "constructor"; "__defineGetter__"; "__defineSetter__"; "hasOwnProperty";
      "__lookupGetter__"; "__lookupSetter__"; "isPrototypeOf";
      "propertyIsEnumerable"; "toString"; "valueOf"; "__proto__";
      "toLocaleString"].

(** Own properties of an object literal, first match. *)
Fixpoint own (props : seq (string * jsval)) (k : string) : option jsval :=
  if props is (k', v) :: props' then
    if k' == k then Some v else own props' k
  else None.

(** [o[k]] on an object literal: own property, else the prototype chain. *)
Definition get (props : seq (string * jsval)) (k : string) : jsval :=
  if own props k is Some v then v
  else if k \in objectPrototypeKeys then JInherited k
  else JUndefined.

(** [v.k]: property access on a value that is an object. *)
Definition field (v : jsval) (k : string) : jsval :=
  if v is JObj props then get props k else JUndefined.

(** Falsy numbers: [0], [-0] and [NaN]. *)
Definition falsy_num (x : float) : bool :=
  PrimFloat.eqb x 0%float || PrimFloat.is_nan x.

(** ToBoolean. *)
Definition truthy (v : jsval) : bool :=
  match v with
  | JUndefined | JNull => false
  | JBool b => b
  | JNum x => ~~ falsy_num x
  | JStr s => s != EmptyString
  | JArr _ | JObj _ | JInherited _ => true
  end.

(** [a || b]. *)
Definition or_else (a b : jsval) : jsval := if truthy a then a else b.

(** [v === 'lit'] against a string literal. *)
Definition is_str (v : jsval) (lit : string) : bool :=
  if v is JStr s then s == lit else false.

(** The decimal text of an index or a count. *)
Definition decimal (n : nat) : string :=
  DecimalString.NilEmpty.string_of_uint (Nat.to_uint n).

(** [{ ...o, k: v }] on the own properties: an existing key keeps its place,
    a new one goes last (the order matters to enumeration only, and keys
    that are array indices are enumerated first by the engine). *)
Fixpoint assign (props : seq (string * jsval)) (k : string) (v : jsval)
    : seq (string * jsval) :=
  if props is (k', v') :: props' then
    if k' == k then (k, v) :: props' else (k', v') :: assign props' k v
  else [:: (k, v)].

Fixpoint indexed (i : nat) (items : seq jsval) : seq (string * jsval) :=
  if items is x :: items' then (decimal i, x) :: indexed i.+1 items' else [::].

(** The own enumerable properties that [{ ...v }] copies; [codeUnits]
    splits a text into its UTF-16 code units. *)
Definition spread (codeUnits : string -> seq string) (v : jsval)
    : seq (string * jsval) :=
  match v with
  | JObj props => props
  | JArr items => indexed 0 items
  | JStr s => indexed 0 [seq JStr u | u <- codeUnits s]
  | _ => [::]
  end.

(** [arr.join(sep)] on texts. *)
Fixpoint join (sep : string) (arr : seq string) : string :=
  match arr with
  | [::] => EmptyString
  | [:: x] => x
  | x :: arr' => x ++ sep ++ join sep arr'
  end.

(** [s.includes(needle)] *)
Fixpoint includes (s needle : string) : bool :=
  String.prefix needle s
  || (if s is String _ s' then includes s' needle else false).

(** [arr.find(p)]: the first element that passes, if any. *)
Fixpoint array_find {T : Type} (p : pred T) (arr : seq T) : option T :=
  if arr is x :: arr' then if p x then Some x else array_find p arr'
  else None.

End Js.

Import Js.

(** ** The data model shared by the sources *)

Record Position := { pos_x : float; pos_y : float }.

(** A React Flow node as the pages and the store hold it. *)
Record Node := {
  node_id : string;
  node_type : string;
  node_position : option Position;
  node_data : jsval
}.

(** A React Flow edge. *)
Record Edge := {
  edge_id : string;
  source : string;
  target : string;
  sourceHandle : option string;
  targetHandle : option string
}.

Definition edge_to_tuple (e : Edge) :=
  (edge_id e, source e, target e, sourceHandle e, targetHandle e).
Definition tuple_to_edge (t : string * string * string * option string * option string) :=
  let: (i, s, t, sh, th) := t in
  {| edge_id := i; source := s; target := t; sourceHandle := sh; targetHandle := th |}.
Lemma edge_tupleK : cancel edge_to_tuple tuple_to_edge.
Proof. by case. Qed.
HB.instance Definition _ := Equality.copy Edge (can_type edge_tupleK).

(** A connection of the request body sent to the backend. *)
Record Connection := {
  conn_source : string;
  conn_target : string;
  conn_sourceHandle : option string;
  conn_targetHandle : option string
}.

(** The workflow object a page hands to the chat service; a field that is
    absent, [null] or [undefined] is [None]. *)
Record Workflow := {
  wf_nodes : option (seq Node);
  wf_connections : option (seq Connection)
}.

(** A node of the backend format; its [type] is whatever
    [nodeTypeMap[node.type] || node.type] evaluates to. *)
Record BackendNode := {
  bn_id : string;
  bn_type : jsval;
  bn_position : Position;
  bn_data : jsval
}.

Record BackendWorkflow := {
  bw_nodes : seq BackendNode;
  bw_connections : seq Connection
}.

(** ** services/chatService.js *)

Module ChatService.

Record Step := { title : string; description : string }.

Definition step_to_pair (s : Step) := (title s, description s).
Definition pair_to_step (p : string * string) :=
  {| title := p.1; description := p.2 |}.
Lemma step_pairK : cancel step_to_pair pair_to_step.
Proof. by case. Qed.
HB.instance Definition _ := Equality.copy Step (can_type step_pairK).

(** [steps.push(s)] *)
Definition push (steps : seq Step) (s : Step) : seq Step := rcons steps s.

Definition getWorkflowSteps (workflow : BackendWorkflow) : seq Step :=
  let steps :=
    [:: {| title := "Processing Query"; description := "Analyzing user input" |}] in
  let steps :=
    if has (fun n => is_str (bn_type n) "knowledge_base") (bw_nodes workflow)
    then push steps {| title := "Searching Knowledge Base";
                       description := "Finding relevant documents" |}
    else steps in
  let steps :=
    if has (fun n => is_str (bn_type n) "llm_engine") (bw_nodes workflow)
    then push steps {| title := "Generating Response";
                       description := "AI is processing your request" |}
    else steps in
  push steps {| title := "Finalizing Output"; description := "Preparing response" |}.

Definition emptyConfigData : jsval := JObj [:: ("config", JObj [::])].

Definition defaultWorkflow : BackendWorkflow :=
  {| bw_nodes :=
       [:: {| bn_id := "1"; bn_type := JStr "user_query";
              bn_position := {| pos_x := 100; pos_y := 100 |};
              bn_data := emptyConfigData |};
           {| bn_id := "2"; bn_type := JStr "llm_engine";
              bn_position := {| pos_x := 200; pos_y := 100 |};
              bn_data := JObj [:: ("config",
                 JObj [:: ("model", JStr "gpt-3.5-turbo");
                          ("temperature", JNum 0.7);
                          ("max_tokens", JNum 1000)])] |};
           {| bn_id := "3"; bn_type := JStr "output";
              bn_position := {| pos_x := 300; pos_y := 100 |};
              bn_data := emptyConfigData |}];
     bw_connections :=
       [:: {| conn_source := "1"; conn_target := "2";
              conn_sourceHandle := None; conn_targetHandle := None |};
           {| conn_source := "2"; conn_target := "3";
              conn_sourceHandle := None; conn_targetHandle := None |}] |}.

Definition nodeTypeMap : seq (string * jsval) :=
  [:: ("userQuery", JStr "user_query");
      ("knowledgeBase", JStr "knowledge_base");
      ("llmEngine", JStr "llm_engine");
      ("output", JStr "output")].

Definition convertNode (node : Node) : BackendNode :=
  {| bn_id := node_id node;
     bn_type := or_else (get nodeTypeMap (node_type node)) (JStr (node_type node));
     bn_position :=
       if node_position node is Some p then p else {| pos_x := 0; pos_y := 0 |};
     bn_data := or_else (node_data node) emptyConfigData |}.

Definition convertWorkflowFormat (workflow : option Workflow) : BackendWorkflow :=
  match workflow with
  | None => defaultWorkflow
  | Some w =>
      match wf_nodes w with
      | None => defaultWorkflow
      | Some nodes =>
          {| bw_nodes := [seq convertNode node | node <- nodes];
             bw_connections :=
               if wf_connections w is Some cs then cs else [::] |}
      end
  end.

(** The request body of [POST /api/workflow/execute]. *)
Record ExecuteRequest := {
  user_id : string;
  query : string;
  req_workflow : BackendWorkflow
}.

(** How the awaited [this.api.post] settles: with the parsed response
    body, or by throwing an error that carries a message. *)
Inductive PostResult :=
| Fulfilled (data : jsval)
| Failed (message : string).

(** Reading a property of [null] or [undefined] throws a [TypeError]. *)
Definition nullish (v : jsval) : bool :=
  match v with
  | JUndefined | JNull => true
  | _ => false
  end.

(** The object handed to the [onProgress] callback. *)
Record Progress := {
  p_steps : seq Step;
  currentStep : nat;
  status : string;
  p_error : option string
}.

(** What [sendMessage] returns on either path. *)
Record Reply := {
  content : jsval;
  sources : jsval;
  executionTime : jsval
}.

(** How the promise of an [async] method settles. *)
Inductive Settled :=
| Resolved (reply : Reply)
| Rejected (message : string).

Definition dquote : string := String "034"%char EmptyString.

(** The four canned texts of [generateFallbackResponse]. *)
Definition responses (message : string) : seq jsval :=
  [:: JStr ("I understand you're asking about " ++ dquote ++ message ++ dquote ++
            ". Based on the workflow configuration, I would process this through the knowledge base and generate a comprehensive response.");
      JStr ("Thank you for your question about " ++ dquote ++ message ++ dquote ++
            ". The AI workflow would typically search relevant documents and provide contextual information.");
      JStr ("Your query " ++ dquote ++ message ++ dquote ++
            " has been processed through the configured workflow. In a full implementation, this would involve document retrieval and AI-powered response generation.");
      JStr ("I've received your message: " ++ dquote ++ message ++ dquote ++
            ". The workflow would normally execute knowledge base search, LLM processing, and formatted output generation.")].

(** [pick] is the value of [Math.floor(Math.random() * responses.length)]. *)
Definition generateFallbackResponse (pick : 'I_4) (message : string) : jsval :=
  nth JUndefined (responses message) pick.

Section SendMessage.

(** The backend behind [this.api.post]; the number of times the 800 ms
    interval fires before the response arrives, and the number of times it
    is seen to fire after [sendMessage] has returned; the message of the
    [TypeError] that the engine throws on a [null] body; the random draw. *)
Variable post : ExecuteRequest -> PostResult.
Variable ticks : nat.
Variable ticksAfter : nat.
Variable typeError : string.
Variable pick : 'I_4.

(** [if (onProgress) onProgress(p)]: the calls made, in order. *)
Definition report (onProgress : bool) (trace : seq Progress) (p : Progress) :=
  if onProgress then rcons trace p else trace.

(** One firing of the interval callback. *)
Definition tick (onProgress : bool) (steps : seq Step)
    (st : nat * seq Progress) : nat * seq Progress :=
  let: (cur, trace) := st in
  if cur < size steps - 1 then
    (cur.+1, report onProgress trace
       {| p_steps := steps; currentStep := cur.+1;
          status := "processing"; p_error := None |})
  else st.

(** The reply and the [onProgress] calls.  [clearInterval] is reached on
    the path of a response only: when the call throws, the timer is left
    running and goes on firing after the fallback has been returned. *)
Definition sendMessage (message : string) (workflow : option Workflow)
    (onProgress : bool) : Settled * seq Progress :=
  let backendWorkflow := convertWorkflowFormat workflow in
  let steps := getWorkflowSteps backendWorkflow in
  let trace := report onProgress [::]
    {| p_steps := steps; currentStep := 0; status := "starting"; p_error := None |} in
  let: (cur, trace) := iter ticks (tick onProgress steps) (0, trace) in
  let fallback :=
    Resolved
      {| content := generateFallbackResponse pick message;
         sources := JArr [:: JStr "Demo Knowledge Base"];
         executionTime := JNum 1.2 |} in
  match post {| user_id := "demo-user"; query := message;
                req_workflow := backendWorkflow |} with
  | Fulfilled data =>
      let trace := report onProgress trace
        {| p_steps := steps; currentStep := size steps;
           status := "completed"; p_error := None |} in
      if nullish data then
        let trace := report onProgress trace
          {| p_steps := [::]; currentStep := 0;
             status := "error"; p_error := Some typeError |} in
        (fallback, trace)
      else
        (Resolved
           {| content := or_else (field data "response")
                (JStr "I received your message and processed it through the workflow.");
              sources := or_else (field data "sources") (JArr [::]);
              executionTime := or_else (field data "execution_time_ms") (JNum 0) |},
         trace)
  | Failed msg =>
      let trace := report onProgress trace
        {| p_steps := [::]; currentStep := 0;
           status := "error"; p_error := Some msg |} in
      let: (_, trace) := iter ticksAfter (tick onProgress steps) (cur, trace) in
      (fallback, trace)
  end.

End SendMessage.

End ChatService.

(** ** store/workflowStore.js *)

Module WorkflowStore.

(** The [currentWorkflow] object; [createdAt] and [updatedAt] exist on
    workflows made by [createNewWorkflow] and [saveCurrentWorkflow]. *)
Record StoredWorkflow := {
  wid : option string;
  name : string;
  description : string;
  nodes : seq Node;
  edges : seq Edge;
  isValid : bool;
  createdAt : option string;
  updatedAt : option string
}.

Record State := {
  currentWorkflow : StoredWorkflow;
  savedWorkflows : seq StoredWorkflow;
  selectedNode : option Node;
  isRunning : bool;
  chatMessages : seq jsval;
  showChat : bool
}.

(** Actions read the store with [get()] and update it with [set(...)]. *)
Definition Action (A : Type) := State -> A * State.

Definition ret {A} (a : A) : Action A := fun s => (a, s).
Definition bind {A B} (m : Action A) (f : A -> Action B) : Action B :=
  fun s => let: (a, s') := m s in f a s'.
Definition get : Action State := fun s => (s, s).
(** [set(fn)]: [fn] computes the partial state, merged into the store. *)
Definition set (fn : State -> State) : Action unit := fun s => (tt, fn s).

Notation "x <- m ;; k" := (bind m (fun x => k))
  (at level 61, m at next level, right associativity).
Notation "m ;;; k" := (bind m (fun _ => k))
  (at level 61, right associativity).

(** [{ currentWorkflow: w }] merged into the state. *)
Definition with_currentWorkflow (w : StoredWorkflow) (s : State) : State :=
  {| currentWorkflow := w; savedWorkflows := savedWorkflows s;
     selectedNode := selectedNode s; isRunning := isRunning s;
     chatMessages := chatMessages s; showChat := showChat s |}.

(** [{ ...w, isValid }] *)
Definition with_isValid (b : bool) (w : StoredWorkflow) : StoredWorkflow :=
  {| wid := wid w; name := name w; description := description w;
     nodes := nodes w; edges := edges w; isValid := b;
     createdAt := createdAt w; updatedAt := updatedAt w |}.

Definition emptyWorkflow : StoredWorkflow :=
  {| wid := None; name := EmptyString; description := EmptyString;
     nodes := [::]; edges := [::]; isValid := false;
     createdAt := None; updatedAt := None |}.

Definition initialState : State :=
  {| currentWorkflow := emptyWorkflow; savedWorkflows := [::];
     selectedNode := None; isRunning := false;
     chatMessages := [::]; showChat := false |}.

Definition setCurrentWorkflow (workflow : StoredWorkflow) : Action unit :=
  set (with_currentWorkflow workflow).

(** [{ ...w, nodes }] and [{ ...w, edges }] *)
Definition with_nodes (ns : seq Node) (w : StoredWorkflow) : StoredWorkflow :=
  {| wid := wid w; name := name w; description := description w;
     nodes := ns; edges := edges w; isValid := isValid w;
     createdAt := createdAt w; updatedAt := updatedAt w |}.

Definition with_edges (es : seq Edge) (w : StoredWorkflow) : StoredWorkflow :=
  {| wid := wid w; name := name w; description := description w;
     nodes := nodes w; edges := es; isValid := isValid w;
     createdAt := createdAt w; updatedAt := updatedAt w |}.

Definition updateWorkflowNodes (nodes : seq Node) : Action unit :=
  set (fun state =>
         with_currentWorkflow (with_nodes nodes (currentWorkflow state)) state).

(** The guard compares the two arrays by their JSON text; on edges that is
    their equality field by field. *)
Definition updateWorkflowEdges (edges : seq Edge) : Action unit :=
  set (fun state =>
         if WorkflowStore.edges (currentWorkflow state) == edges then state
         else with_currentWorkflow (with_edges edges (currentWorkflow state)) state).

(** The constant [isConnected] of [validateWorkflow]. *)
Definition isConnected (edges : seq Edge) : bool := size edges >= 3.

Definition validateWorkflow : Action bool :=
  st <- get ;;
  let currentWorkflow := currentWorkflow st in
  let nodes := nodes currentWorkflow in
  let edges := edges currentWorkflow in
  let hasUserQuery := has (fun n => node_type n == "user_query") nodes in
  let hasKnowledgeBase := has (fun n => node_type n == "knowledge_base") nodes in
  let hasLLM := has (fun n => node_type n == "llm_engine") nodes in
  let hasOutput := has (fun n => node_type n == "output") nodes in
  let isConnected := isConnected edges in
  let isValid :=
    [&& hasUserQuery, hasKnowledgeBase, hasLLM, hasOutput & isConnected] in
  set (fun state =>
         with_currentWorkflow
           (with_isValid isValid (WorkflowStore.currentWorkflow state)) state) ;;;
  ret isValid.

(** The store is created with [persist]: after every [set] the middleware
    writes [partialize(state)], with the version, under the key
    "workflow-storage". *)
Record Persisted := { persistedWorkflows : seq StoredWorkflow; version : nat }.

Definition partialize (state : State) : Persisted :=
  {| persistedWorkflows := savedWorkflows state; version := 1 |}.

(** [validateWorkflow] as the persisted store runs it: its one [set] is
    followed by one write to "workflow-storage".  The result is the verdict,
    the store, and the entries written, in order. *)
Definition validateWorkflow_persisted (s : State)
    : bool * State * seq Persisted :=
  let: (isValid, s') := validateWorkflow s in
  (isValid, s', [:: partialize s']).

(** [{ ...w, updatedAt }] *)
Definition with_updatedAt (at_ : string) (w : StoredWorkflow) : StoredWorkflow :=
  {| wid := wid w; name := name w; description := description w;
     nodes := nodes w; edges := edges w; isValid := isValid w;
     createdAt := createdAt w; updatedAt := Some at_ |}.

(** [{ savedWorkflows: ws }] merged into the state. *)
Definition with_savedWorkflows (ws : seq StoredWorkflow) (s : State) : State :=
  {| currentWorkflow := currentWorkflow s; savedWorkflows := ws;
     selectedNode := selectedNode s; isRunning := isRunning s;
     chatMessages := chatMessages s; showChat := showChat s |}.

Definition with_chatMessages (ms : seq jsval) (s : State) : State :=
  {| currentWorkflow := currentWorkflow s; savedWorkflows := savedWorkflows s;
     selectedNode := selectedNode s; isRunning := isRunning s;
     chatMessages := ms; showChat := showChat s |}.

(** An id that passes [if (id)]: a string that is not empty. *)
Definition truthy_id (id : option string) : bool :=
  if id is Some i then i != EmptyString else false.

(** [now] is the text of [Date.now().toString()], [nowISO] that of
    [new Date().toISOString()]. *)
Definition createNewWorkflow (name description : string) (now nowISO : string)
    : Action StoredWorkflow :=
  let newWorkflow :=
    {| wid := Some now; name := name; description := description;
       nodes := [::]; edges := [::]; isValid := false;
       createdAt := Some nowISO; updatedAt := None |} in
  set (with_currentWorkflow newWorkflow) ;;;
  ret newWorkflow.

Definition saveCurrentWorkflow (nowISO : string) : Action unit :=
  st <- get ;;
  let currentWorkflow := currentWorkflow st in
  let savedWorkflows := savedWorkflows st in
  if ~~ truthy_id (wid currentWorkflow) then ret tt
  else
    let updatedWorkflows :=
      filter (fun w => wid w != wid currentWorkflow) savedWorkflows in
    let updatedWorkflows :=
      rcons updatedWorkflows (with_updatedAt nowISO currentWorkflow) in
    set (with_savedWorkflows updatedWorkflows).

Definition loadWorkflow (workflowId : string) : Action unit :=
  st <- get ;;
  let workflow := array_find (fun w => wid w == Some workflowId) (savedWorkflows st) in
  if workflow is Some workflow then set (with_currentWorkflow workflow)
  else ret tt.

Definition deleteWorkflow (workflowId : string) : Action unit :=
  st <- get ;;
  let updatedWorkflows :=
    filter (fun w => wid w != Some workflowId) (savedWorkflows st) in
  set (with_savedWorkflows updatedWorkflows).

Definition addChatMessage (message : jsval) : Action unit :=
  set (fun state => with_chatMessages (rcons (chatMessages state) message) state).

Definition clearChatMessages : Action unit :=
  set (with_chatMessages [::]).

(** The object given to [set] names every field but [savedWorkflows]. *)
Definition reset : Action unit :=
  set (fun state =>
    {| currentWorkflow := emptyWorkflow; savedWorkflows := savedWorkflows state;
       selectedNode := None; isRunning := false;
       chatMessages := [::]; showChat := false |}).

End WorkflowStore.

(** ** components/chat/ChatModal.jsx *)

Module ChatModal.

Definition requiredTypes : seq string :=
  [:: "user_query"; "knowledge_base"; "llm_engine"; "output"].

(** The two checks [handleSendMessage] makes on the store's workflow, once
    the message is not blank and no request is pending, before it sends
    anything: the content of the system message it posts when it gives up,
    [None] when it goes on to call the backend. *)
Definition handleSendMessage_check (currentWorkflow : WorkflowStore.StoredWorkflow)
    : option string :=
  let nodeTypes := [seq node_type n | n <- WorkflowStore.nodes currentWorkflow] in
  let hasAllTypes := all (fun type => type \in nodeTypes) requiredTypes in
  if ~~ hasAllTypes then
    Some "Please add all required components: User Query, Knowledge Base, LLM Engine, and Output nodes."
  else if size (WorkflowStore.edges currentWorkflow) < 3 then
    Some "Please connect your workflow components before chatting."
  else None.

(** How the awaited [fetch] and the reading of its body end: a response
    with [ok] and its JSON object, a response without [ok], or an exception. *)
Inductive FetchResult :=
| FetchOk (data : seq (string * jsval))
| FetchNotOk (status : string) (errorData : seq (string * jsval))
| FetchThrew (message : string).

(** [handle || null] *)
Definition handleOrNull (handle : option string) : option string :=
  if handle is Some h then (if h != EmptyString then Some h else None) else None.

(** The [workflowData] sent to the backend. *)
Definition workflowData (currentWorkflow : WorkflowStore.StoredWorkflow)
    : BackendWorkflow :=
  {| bw_nodes :=
       [seq {| bn_id := node_id node; bn_type := JStr (node_type node);
               bn_position :=
                 if node_position node is Some p then p
                 else {| pos_x := 0; pos_y := 0 |};
               bn_data := or_else (node_data node) (JObj [::]) |}
       | node <- WorkflowStore.nodes currentWorkflow];
     bw_connections :=
       [seq {| conn_source := source edge; conn_target := target edge;
               conn_sourceHandle := handleOrNull (sourceHandle edge);
               conn_targetHandle := handleOrNull (targetHandle edge) |}
       | edge <- WorkflowStore.edges currentWorkflow] |}.

Definition chatMessage (id : float) (type : string) (content : jsval)
    (timestamp : string) : seq (string * jsval) :=
  [:: ("id", JNum id); ("type", JStr type); ("content", content);
      ("timestamp", JStr timestamp)].

Section HandleSendMessage.

(** The backend behind [fetch]; the clock read when the call starts
    ([Date.now()] and its ISO text) and when the reply is in. *)
Variable fetch : ChatService.ExecuteRequest -> FetchResult.
Variables (now : float) (nowISO : string) (later : float) (laterISO : string).

(** [trimmed] is the text of [message.trim()].  The result is the request
    sent to the backend, if one was sent. *)
Definition handleSendMessage (trimmed : string) (isLoading : bool)
    : WorkflowStore.Action (option ChatService.ExecuteRequest) :=
  fun store =>
  if (trimmed == EmptyString) || isLoading then (None, store)
  else
    let currentWorkflow := WorkflowStore.currentWorkflow store in
    match handleSendMessage_check currentWorkflow with
    | Some content =>
        (None,
         (WorkflowStore.addChatMessage
            (JObj (chatMessage now "system" (JStr content) nowISO)) store).2)
    | None =>
        let userMessage := chatMessage now "user" (JStr trimmed) nowISO in
        let store := (WorkflowStore.addChatMessage (JObj userMessage) store).2 in
        let request :=
          {| ChatService.user_id := "chat-user";
             ChatService.query := trimmed;
             ChatService.req_workflow := workflowData currentWorkflow |} in
        match fetch request with
        | FetchOk data =>
            let botMessage :=
              rcons
                (chatMessage (later + 1)%float "bot"
                   (or_else (get data "response")
                      (JStr "I received your message but couldn't generate a response."))
                   laterISO)
                ("executionTime", get data "execution_time_ms") in
            (Some request, (WorkflowStore.addChatMessage (JObj botMessage) store).2)
        | FetchNotOk _ _ | FetchThrew _ =>
            let errorMessage :=
              chatMessage (later + 1)%float "system"
                (JStr "Sorry, I encountered an error while processing your message. Please try again.")
                laterISO in
            (Some request, (WorkflowStore.addChatMessage (JObj errorMessage) store).2)
        end
    end.

End HandleSendMessage.

End ChatModal.

(** ** pages/StackBuilder.jsx *)

Module StackBuilder.

Definition validateWorkflow (nodes : seq Node) (edges : seq Edge) : bool :=
  if size nodes == 0 then false
  else
    let hasUserQuery := has (fun node => node_type node == "user_query") nodes in
    let hasLLM := has (fun node => node_type node == "llm_engine") nodes in
    let hasOutput := has (fun node => node_type node == "output") nodes in
    let hasConnections := size edges > 0 in
    [&& hasUserQuery, hasLLM, hasOutput & hasConnections].

(** [\w] of a regular expression without the [u] flag. *)
Definition isWordChar (c : ascii) : bool :=
  let n := nat_of_ascii c in
  [|| (48 <= n) && (n <= 57), (65 <= n) && (n <= 90),
      (97 <= n) && (n <= 122) | n == 95].

(** [l.toUpperCase()] on one such character. *)
Definition upperChar (c : ascii) : ascii :=
  let n := nat_of_ascii c in
  if (97 <= n) && (n <= 122) then ascii_of_nat (n - 32) else c.

(** [s.replace('_', ' ')]: the first underscore only. *)
Fixpoint replaceUnderscore (s : string) : string :=
  if s is String c s' then
    if Ascii.eqb c "_"%char then String " "%char s'
    else String c (replaceUnderscore s')
  else EmptyString.

(** [s.replace(/\b\w/g, l => l.toUpperCase())]; [inWord] tells whether the
    character before was a word character. *)
Fixpoint capitalizeWords (inWord : bool) (s : string) : string :=
  if s is String c s' then
    String (if isWordChar c && ~~ inWord then upperChar c else c)
           (capitalizeWords (isWordChar c) s')
  else EmptyString.

(** The nodes after a drop; [type] is the text carried by the drag,
    [position] the flow position of the drop point, [now] the text of
    [Date.now()]. *)
Definition onDrop (type : string) (position : Position) (now : string)
    (nodes : seq Node) : seq Node :=
  if type == EmptyString then nodes
  else
    let newNode :=
      {| node_id := type ++ "-" ++ now;
         node_type := type;
         node_position := Some position;
         node_data :=
           JObj [:: ("label",
                     JStr (capitalizeWords false (replaceUnderscore type)));
                    ("config", JObj [::])] |} in
    (nodes ++ [:: newNode])%SEQ.

End StackBuilder.

(** ** pages/WorkflowBuilder.jsx *)

Module WorkflowBuilder.

(** The [useState] cells of the page that the modelled handlers touch. *)
Record State := {
  nodes : seq Node;
  edges : seq Edge;
  selectedNode : option Node;
  isValidWorkflow : bool
}.

Definition setNodes (f : seq Node -> seq Node) (s : State) : State :=
  {| nodes := f (nodes s); edges := edges s;
     selectedNode := selectedNode s; isValidWorkflow := isValidWorkflow s |}.

Definition setEdges (f : seq Edge -> seq Edge) (s : State) : State :=
  {| nodes := nodes s; edges := f (edges s);
     selectedNode := selectedNode s; isValidWorkflow := isValidWorkflow s |}.

Definition setIsValidWorkflow (b : bool) (s : State) : State :=
  {| nodes := nodes s; edges := edges s;
     selectedNode := selectedNode s; isValidWorkflow := b |}.

Definition labels : seq (string * jsval) :=
  [:: ("userQuery", JStr "User Query");
      ("knowledgeBase", JStr "Knowledge Base");
      ("llmEngine", JStr "LLM Engine");
      ("output", JStr "Output")].

Definition getNodeLabel (type : string) : jsval :=
  or_else (get labels type) (JStr "Unknown").

Definition configs : seq (string * jsval) :=
  [:: ("userQuery", JObj [:: ("placeholder", JStr "Enter your question...")]);
      ("knowledgeBase",
        JObj [:: ("maxResults", JNum 5); ("similarityThreshold", JNum 0.7)]);
      ("llmEngine",
        JObj [:: ("model", JStr "gpt-3.5-turbo");
                 ("temperature", JNum 0.7);
                 ("maxTokens", JNum 1000);
                 ("enableWebSearch", JBool false);
                 ("systemPrompt", JStr EmptyString)]);
      ("output",
        JObj [:: ("format", JStr "text");
                 ("showSources", JBool true);
                 ("enableFollowUp", JBool true)])].

Definition getDefaultConfig (type : string) : jsval :=
  or_else (get configs type) (JObj [::]).

(** [now] is the decimal text of [Date.now()]; [rnd] holds the two draws of
    [Math.random()] used when no position is given. *)
Definition newNode (type : string) (position : option Position)
    (now : string) (rnd : float * float) : Node :=
  {| node_id := type ++ "-" ++ now;
     node_type := type;
     node_position :=
       Some (if position is Some p then p
             else {| pos_x := (rnd.1 * 400 + 100)%float;
                     pos_y := (rnd.2 * 400 + 100)%float |});
     node_data := JObj [:: ("label", getNodeLabel type);
                           ("config", getDefaultConfig type)] |}.

Definition addNode (type : string) (position : option Position)
    (now : string) (rnd : float * float) : State -> State :=
  let newNode := newNode type position now rnd in
  setNodes (fun nds => (nds ++ [:: newNode])%SEQ).

Definition onNodesDelete (nodesToDelete : seq Node) (s : State) : State :=
  let s := setNodes (fun nds =>
    [seq node <- nds |
       ~~ has (fun n => node_id n == node_id node) nodesToDelete]) s in
  let deletedNodeIds := [seq node_id n | n <- nodesToDelete] in
  setEdges (fun eds =>
    [seq edge <- eds |
       (source edge \notin deletedNodeIds) && (target edge \notin deletedNodeIds)]) s.

Definition onEdgesDelete (edgesToDelete : seq Edge) : State -> State :=
  setEdges (fun eds =>
    [seq edge <- eds |
       ~~ has (fun e => edge_id e == edge_id edge) edgesToDelete]).

Definition validateWorkflow (s : State) : bool * State :=
  let hasUserQuery := has (fun node => node_type node == "userQuery") (nodes s) in
  let hasOutput := has (fun node => node_type node == "output") (nodes s) in
  let hasConnections := size (edges s) > 0 in
  let isValid := [&& hasUserQuery, hasOutput & hasConnections] in
  (isValid, setIsValidWorkflow isValid s).

(** [{ ...node, data: newData }] *)
Definition with_data (newData : jsval) (node : Node) : Node :=
  {| node_id := node_id node; node_type := node_type node;
     node_position := node_position node; node_data := newData |}.

Definition updateNodeConfig (nodeId : string) (newData : jsval) : State -> State :=
  setNodes (fun nds =>
    [seq if node_id node == nodeId then with_data newData node else node
    | node <- nds]).

(** The [currentWorkflow] object that the page's [sendMessage] builds from
    the canvas and hands to the chat service. *)
Definition currentWorkflowOf (s : State) : Workflow :=
  {| wf_nodes := Some
       [seq {| node_id := node_id node; node_type := node_type node;
               node_position := node_position node;
               node_data := node_data node |}
       | node <- nodes s];
     wf_connections := Some
       [seq {| conn_source := source edge; conn_target := target edge;
               conn_sourceHandle := sourceHandle edge;
               conn_targetHandle := targetHandle edge |}
       | edge <- edges s] |}.

Section Storage.

(** [JSON.parse] on the stored texts; [None] when it throws. *)
Variable parseNodes : string -> option (seq Node).
Variable parseEdges : string -> option (seq Edge).

(** [getItem]: the stored text, or [null]. *)
Definition Storage := string -> option string.

(** A stored text that passes [if (text)]. *)
Definition stored (item : option string) : bool :=
  if item is Some text then text != EmptyString else false.

Definition loadWorkflowFromStorage (sessionStorage localStorage : Storage)
    : seq Node * seq Edge :=
  let savedNodes := sessionStorage "workflowNodes" in
  let savedEdges := sessionStorage "workflowEdges" in
  let: (savedNodes, savedEdges) :=
    if ~~ stored savedNodes || ~~ stored savedEdges
    then (localStorage "savedWorkflowNodes", localStorage "savedWorkflowEdges")
    else (savedNodes, savedEdges) in
  let nodes :=
    if savedNodes is Some text
    then (if text != EmptyString then parseNodes text else Some [::])
    else Some [::] in
  let edges :=
    if savedEdges is Some text
    then (if text != EmptyString then parseEdges text else Some [::])
    else Some [::] in
  match nodes, edges with
  | Some nodes, Some edges => (nodes, edges)
  | _, _ => ([::], [::])
  end.

End Storage.

End WorkflowBuilder.

(** ** services/stackService.js *)

Module StackService.

Record StructureResult := { valid : bool; error : option string }.

Definition validateWorkflowStructure (nodes : seq Node) (edges : seq Edge)
    : StructureResult :=
  let nodeTypes := [seq node_type n | n <- nodes] in
  let requiredTypes :=
    [:: "user_query"; "knowledge_base"; "llm_engine"; "output"] in
  let hasAllTypes := all (fun type => type \in nodeTypes) requiredTypes in
  if ~~ hasAllTypes then
    {| valid := false;
       error := Some "Missing required components. Please add User Query, Knowledge Base, LLM Engine, and Output components." |}
  else
    let userQueryNode := array_find (fun n => node_type n == "user_query") nodes in
    let outputNode := array_find (fun n => node_type n == "output") nodes in
    if ~~ isSome userQueryNode || ~~ isSome outputNode then
      {| valid := false;
         error := Some "User Query and Output components are required." |}
    else if size edges < 3 then
      {| valid := false;
         error := Some "Components must be connected in a workflow. Please connect your components." |}
    else {| valid := true; error := None |}.

End StackService.

(** ** components/workflow/FloatingChatButton.jsx *)

Module FloatingChatButton.

Definition validateWorkflow (nodes : seq Node) (edges : seq Edge) : bool :=
  if size nodes == 0 then false
  else
    let hasUserQuery := has (fun node => node_type node == "user_query") nodes in
    let hasLLM := has (fun node => node_type node == "llm_engine") nodes in
    let hasOutput := has (fun node => node_type node == "output") nodes in
    let hasConnections := size edges > 0 in
    [&& hasUserQuery, hasLLM, hasOutput & hasConnections].

Record Validation := {
  isValid : bool;
  errors : seq string;
  warnings : seq string;
  summary : string
}.

Definition newline : string := String "010"%char EmptyString.

(** [node.data?.config || {}] *)
Definition configOf (node : Node) : jsval :=
  or_else (field (node_data node) "config") (JObj [::]).

(** [!docs || docs.length === 0] *)
Definition noDocuments (docs : jsval) : bool :=
  ~~ truthy docs
  || match docs with
     | JArr items => size items == 0
     | JStr s => String.length s == 0
     | JObj props =>
         if get props "length" is JNum x then PrimFloat.eqb x 0 else false
     | JInherited key => key \in [:: "toString"; "valueOf"; "toLocaleString"]
     | _ => false
     end.

(** The messages a [forEach((node, index) => ...)] pushes, the index
    counting from 0. *)
Fixpoint forEachIndexed (f : Node -> nat -> seq string) (index : nat)
    (ns : seq Node) : seq string :=
  if ns is node :: ns' then cat (f node index) (forEachIndexed f index.+1 ns')
  else [::].

Definition validateWorkflowDetailed (nodes : seq Node) (edges : seq Edge)
    : Validation :=
  if size nodes == 0 then
    {| isValid := false; errors := [:: "• No nodes found in workflow"];
       warnings := [::]; summary := EmptyString |}
  else
    let userQueryNodes := [seq node <- nodes | node_type node == "user_query"] in
    let knowledgeBaseNodes :=
      [seq node <- nodes | node_type node == "knowledge_base"] in
    let llmNodes := [seq node <- nodes | node_type node == "llm_engine"] in
    let outputNodes := [seq node <- nodes | node_type node == "output"] in
    let errors := [::] in
    let errors :=
      if size userQueryNodes == 0
      then rcons errors "• Missing User Query node" else errors in
    let errors :=
      if size llmNodes == 0
      then rcons errors "• Missing LLM Engine node" else errors in
    let errors :=
      if size outputNodes == 0
      then rcons errors "• Missing Output node" else errors in
    let errors :=
      if size edges == 0
      then rcons errors "• No connections between nodes" else errors in
    let warnings :=
      forEachIndexed (fun node index =>
        if noDocuments (field (configOf node) "selectedDocuments")
        then [:: "• Knowledge Base node " ++ decimal index.+1
                 ++ ": No documents selected"]
        else [::]) 0 knowledgeBaseNodes in
    let errors := cat errors
     (forEachIndexed (fun node index =>
        if ~~ truthy (field (configOf node) "apiKey")
        then [:: "• LLM Engine node " ++ decimal index.+1 ++ ": Missing API key"]
        else [::]) 0 llmNodes) in
    let warnings := cat warnings
     (forEachIndexed (fun node index =>
        if ~~ truthy (field (configOf node) "model")
        then [:: "• LLM Engine node " ++ decimal index.+1
                 ++ ": No model selected (will use default)"]
        else [::]) 0 llmNodes) in
    let connectedNodes :=
      flatten [seq [:: source edge; target edge] | edge <- edges] in
    let unconnectedNodes :=
      [seq node <- nodes | node_id node \notin connectedNodes] in
    let warnings :=
      if size unconnectedNodes > 0
      then rcons warnings
             ("• " ++ decimal (size unconnectedNodes) ++ " unconnected nodes found")
      else warnings in
    let isValid := size errors == 0 in
    let summary :=
      if isValid then
        "Workflow Structure:" ++ newline
        ++ "• " ++ decimal (size userQueryNodes) ++ " User Query node(s)" ++ newline
        ++ "• " ++ decimal (size knowledgeBaseNodes) ++ " Knowledge Base node(s)" ++ newline
        ++ "• " ++ decimal (size llmNodes) ++ " LLM Engine node(s)" ++ newline
        ++ "• " ++ decimal (size outputNodes) ++ " Output node(s)" ++ newline
        ++ "• " ++ decimal (size edges) ++ " connection(s)"
        ++ (if size warnings > 0
            then newline ++ newline ++ "Warnings:" ++ newline
                 ++ join newline warnings
            else EmptyString)
      else EmptyString in
    {| isValid := isValid; errors := errors; warnings := warnings;
       summary := summary |}.

(** The nodes [updateOutputNode] hands to React Flow and to the store;
    [None] when there is no output node and nothing is updated. *)
Definition updateOutputNode (codeUnits : string -> seq string)
    (response : jsval) (nowISO : string)
    (currentNodes : seq Node) : option (seq Node) :=
  let outputNode := array_find (fun node => node_type node == "output") currentNodes in
  if outputNode is Some outputNode then
    Some [seq if node_id node == node_id outputNode then
                {| node_id := node_id node; node_type := node_type node;
                   node_position := node_position node;
                   node_data :=
                     JObj (assign (spread codeUnits (node_data node)) "config"
                       (JObj (assign (assign (assign
                          (spread codeUnits (field (node_data node) "config"))
                          "response" response)
                          "lastUpdated" (JStr nowISO))
                          "status" (JStr "completed")))) |}
              else node
         | node <- currentNodes]
  else None.

End FloatingChatButton.

(** ** pages/ChatUI.jsx *)

Module ChatUI.

(** [lowered] is the text of [response.toLowerCase()]. *)
Definition generateFollowUpQuestions (lowered : string) : seq string :=
  let questions := [::] in
  let questions :=
    if includes lowered "artificial intelligence" || includes lowered "ai"
    then cat questions [:: "How is AI being used in different industries?";
                          "What are the ethical considerations of AI?"]
    else questions in
  let questions :=
    if includes lowered "machine learning"
    then cat questions [:: "What are the different types of machine learning?";
                          "How does deep learning work?"]
    else questions in
  let questions :=
    if includes lowered "data"
    then cat questions [:: "How is data processed in this workflow?";
                          "What types of data can be analyzed?"]
    else questions in
  let questions :=
    if size questions == 0
    then cat questions [:: "Can you explain this in more detail?";
                          "What are some related topics?";
                          "How can I learn more about this?"]
    else questions in
  take 3 questions.

End ChatUI.

(** ** Example graphs *)

Module Examples.

Definition node (id type : string) : Node :=
  {| node_id := id; node_type := type; node_position := None;
     node_data := JUndefined |}.

Definition edge (s t : string) : Edge :=
  {| edge_id := s ++ "-" ++ t; source := s; target := t;
     sourceHandle := None; targetHandle := None |}.

Definition storeWith (ns : seq Node) (es : seq Edge) : WorkflowStore.State :=
  WorkflowStore.with_currentWorkflow
    (WorkflowStore.with_edges es
       (WorkflowStore.with_nodes ns WorkflowStore.emptyWorkflow))
    WorkflowStore.initialState.

Definition fourNodes : seq Node :=
  [:: node "q1" "user_query"; node "k1" "knowledge_base";
      node "l1" "llm_engine"; node "o1" "output"].

Definition threeNodes : seq Node :=
  [:: node "q1" "user_query"; node "l1" "llm_engine"; node "o1" "output"].

(** query -> knowledge base -> LLM -> output *)
Definition pipeline : seq Edge :=
  [:: edge "q1" "k1"; edge "k1" "l1"; edge "l1" "o1"].

(** the knowledge base and the LLM engine feed each other *)
Definition loop : seq Edge :=
  [:: edge "q1" "k1"; edge "k1" "l1"; edge "l1" "k1"; edge "l1" "o1"].

(** query -> LLM -> output, and query -> output *)
Definition triangle : seq Edge :=
  [:: edge "q1" "l1"; edge "l1" "o1"; edge "q1" "o1"].

(** query -> LLM -> output *)
Definition chain : seq Edge := [:: edge "q1" "l1"; edge "l1" "o1"].

End Examples.

(** * Properties *)

(** ** Membership in arrays of objects *)

Section Membership.

Variables (T : Type) (K : eqType).

Lemma has_In (p : pred T) (s : seq T) :
  reflect (exists2 x, List.In x s & p x) (has p s).
Proof.
elim: s => [|x s IH] /=; first by constructor; case.
case px: (p x) => /=; first by left; exists x => //; left.
apply: (iffP IH) => [[y Hy py]|[y [Exy|Hy] py]].
- by exists y => //; right.
- by rewrite -Exy px in py.
- by exists y.
Qed.

Lemma map_In (f : T -> K) (s : seq T) (y : K) :
  reflect (exists2 x, List.In x s & f x = y) (y \in [seq f x | x <- s]).
Proof.
elim: s => [|x s IH] /=; first by rewrite in_nil; constructor; case.
rewrite in_cons; case: eqP => [->|ne] /=; first by left; exists x => //; left.
apply: (iffP IH) => [[z Hz fz]|[z [Exz|Hz] fz]].
- by exists z => //; right.
- by case: ne; rewrite -fz Exz.
- by exists z.
Qed.

End Membership.

(** A node of the given type is present among [nodes]. *)
Definition hasNodeOfType (type : string) (nodes : seq Node) : Prop :=
  exists2 n, List.In n nodes & node_type n = type.

Lemma hasNodeOfTypeP (type : string) (nodes : seq Node) :
  reflect (hasNodeOfType type nodes) (has (fun n => node_type n == type) nodes).
Proof.
apply: (iffP (has_In _ _)) => [[n Hn /eqP tn]|[n Hn tn]]; exists n => //.
exact/eqP.
Qed.

Lemma includes_typeP (type : string) (nodes : seq Node) :
  reflect (hasNodeOfType type nodes) (type \in [seq node_type n | n <- nodes]).
Proof. exact: map_In. Qed.

(** ** The progress steps of the chat service *)

Module ChatServiceFacts.
Import ChatService.

(** A node whose backend type is the string [type] is present. *)
Definition present (type : string) (workflow : BackendWorkflow) : Prop :=
  exists2 n, List.In n (bw_nodes workflow) & bn_type n = JStr type.

Lemma is_strP (v : jsval) (lit : string) : reflect (v = JStr lit) (is_str v lit).
Proof.
case: v => [|||x|s|items|props|key] /=; try by constructor.
by apply: (iffP eqP) => [->|[]].
Qed.

Lemma presentP (type : string) (workflow : BackendWorkflow) :
  reflect (present type workflow)
          (has (fun n => is_str (bn_type n) type) (bw_nodes workflow)).
Proof.
apply: (iffP (has_In _ _)) => [[n Hn /is_strP tn]|[n Hn tn]]; exists n => //.
exact/is_strP.
Qed.

Definition processingQuery : Step :=
  {| title := "Processing Query"; description := "Analyzing user input" |}.
Definition searchingKnowledgeBase : Step :=
  {| title := "Searching Knowledge Base"; description := "Finding relevant documents" |}.
Definition generatingResponse : Step :=
  {| title := "Generating Response"; description := "AI is processing your request" |}.
Definition finalizingOutput : Step :=
  {| title := "Finalizing Output"; description := "Preparing response" |}.

(** The step list as the specification words it: the two bookends around
    one step per present type among knowledge base and LLM engine. *)
Definition stepList (kb llm : bool) : seq Step :=
  (processingQuery
     :: (if kb then [:: searchingKnowledgeBase] else [::])
     ++ (if llm then [:: generatingResponse] else [::])
     ++ [:: finalizingOutput])%SEQ.

Example steps_default :
  [seq title s | s <- getWorkflowSteps defaultWorkflow]
  = [:: "Processing Query"; "Generating Response"; "Finalizing Output"].
Proof. by []. Qed.

(** C7. The progress step list is the first step "Processing Query", the
    knowledge-base step iff a [knowledge_base] node is present, the
    generation step iff an [llm_engine] node is present, and the last step
    "Finalizing Output"; it is determined by these two presence facts alone. *)
Theorem getWorkflowSteps_projection (workflow : BackendWorkflow) (kb llm : bool) :
  (present "knowledge_base" workflow <-> kb) ->
  (present "llm_engine" workflow <-> llm) ->
  getWorkflowSteps workflow = stepList kb llm.
Proof.
move=> Hkb Hllm; rewrite /getWorkflowSteps /stepList.
have -> : has (fun n => is_str (bn_type n) "knowledge_base") (bw_nodes workflow) = kb.
  by apply/idP/idP => [/presentP /Hkb|/Hkb /presentP].
have -> : has (fun n => is_str (bn_type n) "llm_engine") (bw_nodes workflow) = llm.
  by apply/idP/idP => [/presentP /Hllm|/Hllm /presentP].
by case: kb {Hkb}; case: llm {Hllm}.
Qed.

Lemma getWorkflowSteps_projection_witness :
  [/\ present "knowledge_base" defaultWorkflow <-> false,
      present "llm_engine" defaultWorkflow <-> true &
      getWorkflowSteps defaultWorkflow = stepList false true].
Proof.
have Hkb : present "knowledge_base" defaultWorkflow <-> false.
  by split=> // /presentP.
have Hllm : present "llm_engine" defaultWorkflow <-> true.
  by split=> // _; apply/presentP.
split; [exact: Hkb | exact: Hllm |].
exact: (getWorkflowSteps_projection Hkb Hllm).
Defined.

(** ** Conversion to the backend format *)

Lemma convertWorkflowFormat_null : convertWorkflowFormat None = defaultWorkflow.
Proof. by []. Qed.

Lemma convertWorkflowFormat_no_nodes (w : Workflow) :
  wf_nodes w = None -> convertWorkflowFormat (Some w) = defaultWorkflow.
Proof. by rewrite /convertWorkflowFormat => ->. Qed.

Lemma defaultWorkflow_chain :
  [seq (bn_id n, bn_type n) | n <- bw_nodes defaultWorkflow]
    = [:: ("1", JStr "user_query"); ("2", JStr "llm_engine"); ("3", JStr "output")]
  /\ [seq (conn_source c, conn_target c) | c <- bw_connections defaultWorkflow]
    = [:: ("1", "2"); ("2", "3")].
Proof. by []. Qed.

Lemma convertWorkflowFormat_nodes (w : Workflow) (nodes : seq Node) :
  wf_nodes w = Some nodes ->
  bw_nodes (convertWorkflowFormat (Some w)) = [seq convertNode n | n <- nodes].
Proof. by rewrite /convertWorkflowFormat => ->. Qed.

Lemma convertWorkflowFormat_size (w : Workflow) (nodes : seq Node) :
  wf_nodes w = Some nodes ->
  size (bw_nodes (convertWorkflowFormat (Some w))) = size nodes.
Proof. by move/convertWorkflowFormat_nodes ->; rewrite size_map. Qed.

Lemma convertWorkflowFormat_ids (w : Workflow) (nodes : seq Node) :
  wf_nodes w = Some nodes ->
  [seq bn_id n | n <- bw_nodes (convertWorkflowFormat (Some w))]
    = [seq node_id n | n <- nodes].
Proof. by move/convertWorkflowFormat_nodes ->; rewrite -map_comp. Qed.

(** What [nodeTypeMap[node.type] || node.type] evaluates to. *)
Definition convertedType (type : string) : jsval :=
  if type == "userQuery" then JStr "user_query"
  else if type == "knowledgeBase" then JStr "knowledge_base"
  else if type == "llmEngine" then JStr "llm_engine"
  else if type == "output" then JStr "output"
  else if type \in objectPrototypeKeys then JInherited type
  else JStr type.

Lemma convertNode_type (node : Node) :
  bn_type (convertNode node) = convertedType (node_type node).
Proof.
rewrite /convertNode /convertedType /= /get /=.
rewrite ![_ == node_type node]eq_sym.
case: (node_type node == "userQuery") => //.
case: (node_type node == "knowledgeBase") => //.
case: (node_type node == "llmEngine") => //.
case: (node_type node == "output") => //.
by case: (node_type node \in objectPrototypeKeys).
Qed.

(** Type strings that are no key of the map and no inherited member name
    pass through unchanged. *)
Lemma convertNode_type_other (node : Node) :
  node_type node \notin [seq kv.1 | kv <- nodeTypeMap] ->
  node_type node \notin objectPrototypeKeys ->
  bn_type (convertNode node) = JStr (node_type node).
Proof.
move=> Hmap Hproto; rewrite convertNode_type /convertedType (negbTE Hproto).
move: Hmap; rewrite /= !inE !negb_or.
by case/and4P => /negbTE -> /negbTE -> /negbTE -> /negbTE ->.
Qed.

Lemma convertNode_position (node : Node) :
  bn_position (convertNode node)
  = if node_position node is Some p then p else {| pos_x := 0; pos_y := 0 |}.
Proof. by []. Qed.

(** C10. A node whose type string names a member inherited from
    [Object.prototype] does not keep its type: the lookup in [nodeTypeMap]
    finds the inherited member, which is truthy, so the fallback to
    [node.type] is not taken. *)
Theorem convertWorkflowFormat_inherited_type :
  let node := {| node_id := "n1"; node_type := "constructor";
                 node_position := None; node_data := JUndefined |} in
  let w := {| wf_nodes := Some [:: node]; wf_connections := None |} in
  [seq bn_type n | n <- bw_nodes (convertWorkflowFormat (Some w))]
    = [:: JInherited "constructor"]
  /\ [seq bn_type n | n <- bw_nodes (convertWorkflowFormat (Some w))]
    <> [:: JStr (node_type node)].
Proof. by []. Qed.

(** ** What the caller of [sendMessage] receives *)

(** The reply built from the body of a successful response. *)
Definition replyOf (data : jsval) : Reply :=
  {| content := or_else (field data "response")
       (JStr "I received your message and processed it through the workflow.");
     sources := or_else (field data "sources") (JArr [::]);
     executionTime := or_else (field data "execution_time_ms") (JNum 0) |}.

(** The reply returned from the [catch] block. *)
Definition fallbackReply (pick : 'I_4) (message : string) : Reply :=
  {| content := generateFallbackResponse pick message;
     sources := JArr [:: JStr "Demo Knowledge Base"];
     executionTime := JNum 1.2 |}.

Definition errorEvent (msg : string) : Progress :=
  {| p_steps := [::]; currentStep := 0; status := "error"; p_error := Some msg |}.

Definition requestOf (message : string) (workflow : option Workflow) : ExecuteRequest :=
  {| user_id := "demo-user"; query := message;
     req_workflow := convertWorkflowFormat workflow |}.

(** The event [e] was handed to the progress callback, when there is one;
    without a callback nothing was reported at all. *)
Definition told (onProgress : bool) (trace : seq Progress) (e : Progress) : Prop :=
  if onProgress
  then exists earlier, exists after, trace = (earlier ++ e :: after)%SEQ
  else trace = [::].

Lemma tick_off (steps : seq Step) (st : nat * seq Progress) :
  (tick false steps st).2 = st.2.
Proof. by rewrite /tick; case: st => cur trace; case: ifP. Qed.

(** Without a callback nothing is reported, however often the timer fires. *)
Lemma ticks_off (steps : seq Step) (k : nat) (st : nat * seq Progress) :
  (iter k (tick false steps) st).2 = st.2.
Proof. by elim: k => [|k IH] //=; rewrite tick_off. Qed.

(** The timer only ever adds to what was reported. *)
Lemma ticks_grow (onProgress : bool) (steps : seq Step) (k : nat)
    (st : nat * seq Progress) :
  exists more, (iter k (tick onProgress steps) st).2 = (st.2 ++ more)%SEQ.
Proof.
elim: k => [|k [more IH]] /=; first by exists [::]; rewrite cats0.
move: IH; case: (iter k _ st) => [cur trace] /= ->.
rewrite /tick /report; case: ifP => _ /=; last by exists more.
case: onProgress; last by exists more.
by eexists; rewrite -cats1 -catA.
Qed.

(** The backend is down: every call fails. *)
Definition backendDown (_ : ExecuteRequest) : PostResult := Failed "Network Error".

(** C3, as stated, fails: with the backend down the caller still gets a
    resolved reply, with a canned text and a source that no execution
    produced, and no error. *)
Lemma sendMessage_failure_looks_like_success :
  let out :=
    (sendMessage backendDown 0 0 EmptyString ord0 "hi" None false).1 in
  [/\ backendDown (requestOf "hi" None) = Failed "Network Error",
      forall err, out <> Rejected err,
      out = Resolved (fallbackReply ord0 "hi")
    & sources (fallbackReply ord0 "hi") = JArr [:: JStr "Demo Knowledge Base"]].
Proof. by []. Qed.

(** C3, amended. [sendMessage] always resolves.  When the backend call
    succeeds with a body, the reply is built from that body; when it fails,
    or answers with a [null] body, the reply is the demo fallback, shaped
    like a success, and the failure is told only to the progress callback,
    if there is one, in an event with the status "error" and the message. *)
Theorem sendMessage_reply (post : ExecuteRequest -> PostResult)
    (ticks ticksAfter : nat) (typeError : string)
    (pick : 'I_4) (message : string) (workflow : option Workflow)
    (onProgress : bool) :
  let: (out, trace) :=
    sendMessage post ticks ticksAfter typeError pick message workflow onProgress in
  match post (requestOf message workflow) with
  | Fulfilled data =>
      if nullish data
      then out = Resolved (fallbackReply pick message)
           /\ told onProgress trace (errorEvent typeError)
      else out = Resolved (replyOf data)
  | Failed msg =>
      out = Resolved (fallbackReply pick message)
      /\ told onProgress trace (errorEvent msg)
  end.
Proof.
rewrite /sendMessage /requestOf /told.
set steps := getWorkflowSteps _.
case: onProgress => /=.
- case: (iter ticks _ _) => [cur trace]; case: (post _) => [data|msg].
    case: (nullish data) => //; split=> //.
    by eexists; exists [::]; rewrite /report -cats1.
  have [more] := ticks_grow true steps ticksAfter (cur, rcons trace (errorEvent msg)).
  rewrite /report /errorEvent.
  case: (iter ticksAfter _ _) => [cur' trace'] /= ->.
  by split=> //; exists trace, more; rewrite cat_rcons.
- have := ticks_off steps ticks (0, [::]).
  case: (iter ticks _ _) => [cur trace] /= ->.
  case: (post _) => [data|msg]; first by case: (nullish data).
  have := ticks_off steps ticksAfter (cur, [::]).
  by case: (iter ticksAfter _ _) => [cur' trace'] /= ->.
Qed.

End ChatServiceFacts.

(** ** The validators *)

Module ValidatorFacts.
Import WorkflowStore.

(** A directed path along the edges, and a directed cycle. *)
Inductive path (edges : seq Edge) : string -> string -> Prop :=
| path_edge e : e \in edges -> path edges (source e) (target e)
| path_step e v :
    e \in edges -> path edges (target e) v -> path edges (source e) v.

Definition cyclic (edges : seq Edge) : Prop := exists v, path edges v v.

Lemma loop_cyclic : cyclic Examples.loop.
Proof.
exists "k1".
apply: (@path_step _ (Examples.edge "k1" "l1")) => //.
exact: (@path_edge _ (Examples.edge "l1" "k1")).
Qed.

(** Edges that all climb along a ranking of the node ids form no cycle. *)
Lemma path_rank (rank : string -> nat) (es : seq Edge) :
  all (fun e => rank (source e) < rank (target e)) es ->
  forall u v, path es u v -> rank u < rank v.
Proof.
move=> /allP climb u v; elim=> [e /climb //|e w /climb lt_e _ IH].
exact: ltn_trans lt_e IH.
Qed.

Lemma ranked_acyclic (rank : string -> nat) (es : seq Edge) :
  all (fun e => rank (source e) < rank (target e)) es -> ~ cyclic es.
Proof. by move=> climb [v /(path_rank climb)]; rewrite ltnn. Qed.

Lemma triangle_acyclic : ~ cyclic Examples.triangle.
Proof.
by apply: (@ranked_acyclic
  (fun id => if id == "q1" then 0 else if id == "l1" then 1 else 2)).
Qed.

(** The verdict and the store after the call. *)
Lemma validateWorkflowE (s : State) :
  validateWorkflow s =
    let w := currentWorkflow s in
    let v := [&& has (fun n => node_type n == "user_query") (nodes w),
                 has (fun n => node_type n == "knowledge_base") (nodes w),
                 has (fun n => node_type n == "llm_engine") (nodes w),
                 has (fun n => node_type n == "output") (nodes w)
               & isConnected (edges w)] in
    (v, with_currentWorkflow (with_isValid v w) s).
Proof. by []. Qed.

(** All four node types and at least three edges. *)
Definition fourTypesConnected (ns : seq Node) (es : seq Edge) : Prop :=
  [/\ hasNodeOfType "user_query" ns, hasNodeOfType "knowledge_base" ns,
      hasNodeOfType "llm_engine" ns, hasNodeOfType "output" ns
    & 3 <= size es].

Lemma verdictP (s : State) :
  reflect (fourTypesConnected (nodes (currentWorkflow s)) (edges (currentWorkflow s)))
          (validateWorkflow s).1.
Proof.
rewrite validateWorkflowE /=.
apply: (iffP and5P) => [[q k l o c]|[q k l o c]]; split=> //; exact/hasNodeOfTypeP.
Qed.

Lemma chatGateP (w : StoredWorkflow) :
  reflect (fourTypesConnected (nodes w) (edges w))
          (ChatModal.handleSendMessage_check w == None).
Proof.
rewrite /ChatModal.handleSendMessage_check /= andbT ltnNge.
apply: (iffP idP) => [|[q k l o c]].
- case q: (_ \in _) => //=; case k: (_ \in _) => //=.
  case l: (_ \in _) => //=; case o: (_ \in _) => //=.
  by case c: (2 < size _) => //= _; split=> //; exact/includes_typeP.
- by rewrite (introT (includes_typeP _ _) q) (introT (includes_typeP _ _) k)
             (introT (includes_typeP _ _) l) (introT (includes_typeP _ _) o) c.
Qed.

Lemma pageVerdictP (p : WorkflowBuilder.State) :
  reflect [/\ hasNodeOfType "userQuery" (WorkflowBuilder.nodes p),
              hasNodeOfType "output" (WorkflowBuilder.nodes p)
            & 0 < size (WorkflowBuilder.edges p)]
          (WorkflowBuilder.validateWorkflow p).1.
Proof.
rewrite /WorkflowBuilder.validateWorkflow /=.
by apply: (iffP and3P) => [[q o c]|[q o c]]; split=> //; exact/hasNodeOfTypeP.
Qed.

(** C1, as stated, fails: the three mandatory types, wired without a cycle
    into query -> LLM -> output and query -> output, but no knowledge base:
    the store reports the graph invalid. *)
Lemma validateWorkflow_rejects_without_knowledgeBase :
  let s := Examples.storeWith Examples.threeNodes Examples.triangle in
  let w := currentWorkflow s in
  [/\ [/\ hasNodeOfType "user_query" (nodes w), hasNodeOfType "llm_engine" (nodes w)
         & hasNodeOfType "output" (nodes w)],
      ~ cyclic (edges w) /\ size (edges w) = 3,
      (validateWorkflow s).1 = false
    & ChatModal.handleSendMessage_check w
      = Some "Please add all required components: User Query, Knowledge Base, LLM Engine, and Output nodes."].
Proof.
split=> //; first by split; apply/hasNodeOfTypeP.
by split; first exact: triangle_acyclic.
Qed.

(** The builder page accepts a graph that has no LLM engine. *)
Example page_accepts_without_llm :
  (WorkflowBuilder.validateWorkflow
     {| WorkflowBuilder.nodes :=
          [:: Examples.node "q1" "userQuery"; Examples.node "o1" "output"];
        WorkflowBuilder.edges := [:: Examples.edge "q1" "o1"];
        WorkflowBuilder.selectedNode := None;
        WorkflowBuilder.isValidWorkflow := false |}).1 = true.
Proof. by []. Qed.

(** C1, amended.  The store's validation and the chat modal's gate succeed
    exactly when the graph has a user query, a knowledge base, an LLM engine
    and an output node and at least three edges: the knowledge base is
    required.  The builder page's own check succeeds exactly when there is a
    [userQuery] node, an [output] node and at least one edge. *)
Theorem validateWorkflow_required_types (s : State) (p : WorkflowBuilder.State) :
  let w := currentWorkflow s in
  [/\ (validateWorkflow s).1 <-> fourTypesConnected (nodes w) (edges w),
      ChatModal.handleSendMessage_check w = None
        <-> fourTypesConnected (nodes w) (edges w)
    & (WorkflowBuilder.validateWorkflow p).1 <->
        [/\ hasNodeOfType "userQuery" (WorkflowBuilder.nodes p),
            hasNodeOfType "output" (WorkflowBuilder.nodes p)
          & 0 < size (WorkflowBuilder.edges p)]].
Proof.
split.
- by split=> [/verdictP|/verdictP].
- split=> [/eqP /chatGateP //|/chatGateP /eqP //].
- by split=> [/pageVerdictP|/pageVerdictP].
Qed.

(** C2, as stated, fails: the knowledge base and the LLM engine feed each
    other, and the store reports the graph valid. *)
Lemma validateWorkflow_accepts_cycle :
  let s := Examples.storeWith Examples.fourNodes Examples.loop in
  cyclic (edges (currentWorkflow s)) /\ (validateWorkflow s).1 = true.
Proof. by split; first exact: loop_cyclic. Qed.

Lemma updateWorkflowEdges_edges (es : seq Edge) (s : State) :
  edges (currentWorkflow (updateWorkflowEdges es s).2) = es.
Proof. by rewrite /updateWorkflowEdges /set /=; case: eqP. Qed.

Lemma updateWorkflowEdges_nodes (es : seq Edge) (s : State) :
  nodes (currentWorkflow (updateWorkflowEdges es s).2) = nodes (currentWorkflow s).
Proof. by rewrite /updateWorkflowEdges /set /=; case: eqP. Qed.

(** C2, amended.  Validation returns a verdict on every graph, cyclic ones
    included, and has no cycle detection: rewiring the edges of a graph into
    a cycle, keeping their number, leaves the verdict of the store's and of
    the stack builder's validator as it was. *)
Theorem validateWorkflow_cycle_blind (s : State) (es : seq Edge) :
  cyclic es ->
  size es = size (edges (currentWorkflow s)) ->
  let s' := (updateWorkflowEdges es s).2 in
  [/\ edges (currentWorkflow s') = es,
      exists v, exists s'', validateWorkflow s' = (v, s''),
      (validateWorkflow s').1 = (validateWorkflow s).1
    & StackBuilder.validateWorkflow (nodes (currentWorkflow s')) es
      = StackBuilder.validateWorkflow (nodes (currentWorkflow s))
                                      (edges (currentWorkflow s))].
Proof.
move=> _ sz_es s'; rewrite /s' {s'}; split.
- exact: updateWorkflowEdges_edges.
- by rewrite validateWorkflowE; eexists; eexists.
- rewrite !validateWorkflowE [LHS]/= updateWorkflowEdges_edges.
  by rewrite updateWorkflowEdges_nodes /isConnected sz_es.
- by rewrite /StackBuilder.validateWorkflow updateWorkflowEdges_nodes sz_es.
Qed.

Lemma validateWorkflow_cycle_blind_witness :
  let s := Examples.storeWith Examples.fourNodes
             (Examples.pipeline ++ [:: Examples.edge "q1" "l1"])%SEQ in
  let s' := (updateWorkflowEdges Examples.loop s).2 in
  [/\ cyclic Examples.loop,
      size Examples.loop = size (edges (currentWorkflow s))
    & (validateWorkflow s').1 = (validateWorkflow s).1].
Proof.
move=> s s'; split; [exact: loop_cyclic | by [] |].
by case: (@validateWorkflow_cycle_blind s Examples.loop loop_cyclic (erefl _)).
Defined.

(** C4, as stated, fails: query -> LLM -> output has the three mandatory
    types and two edges, and does not pass the connectivity check; nor do
    two edges pass the chat modal's gate on a graph with all four types. *)
Lemma isConnected_rejects_two_edges :
  [/\ size Examples.chain = 2,
      isConnected Examples.chain = false,
      (validateWorkflow (Examples.storeWith Examples.threeNodes Examples.chain)).1
        = false
    & ChatModal.handleSendMessage_check
        (currentWorkflow (Examples.storeWith Examples.fourNodes Examples.chain))
      = Some "Please connect your workflow components before chatting."].
Proof. by []. Qed.

(** C4, amended.  The connectivity check accepts a graph exactly when its
    edge count is at least the number of required node types minus one,
    where the required types are the four of the chat modal (the knowledge
    base included): three edges or more pass, fewer than three fail; the
    chat modal applies the same bound to a graph that has all four types. *)
Theorem isConnected_threshold (w : StoredWorkflow) :
  [/\ isConnected (edges w) = (size ChatModal.requiredTypes - 1 <= size (edges w)),
      isConnected (edges w) = (3 <= size (edges w)),
      (size (edges w) < 3) = ~~ isConnected (edges w)
    & all (fun type => type \in [seq node_type n | n <- nodes w])
          ChatModal.requiredTypes ->
      (ChatModal.handleSendMessage_check w == None) = isConnected (edges w)].
Proof.
split=> //; first by rewrite /isConnected ltnNge.
rewrite /ChatModal.handleSendMessage_check => -> /=.
by rewrite /isConnected ltnNge; case: (2 < size _).
Qed.

(** The builder page requires two node types, and one edge. *)
Lemma page_hasConnections (p : WorkflowBuilder.State) :
  hasNodeOfType "userQuery" (WorkflowBuilder.nodes p) ->
  hasNodeOfType "output" (WorkflowBuilder.nodes p) ->
  (WorkflowBuilder.validateWorkflow p).1 = (2 - 1 <= size (WorkflowBuilder.edges p)).
Proof.
rewrite /WorkflowBuilder.validateWorkflow /=.
by move=> /hasNodeOfTypeP -> /hasNodeOfTypeP ->.
Qed.

Lemma isConnected_threshold_witness :
  let w := currentWorkflow (Examples.storeWith Examples.fourNodes Examples.pipeline) in
  all (fun type => type \in [seq node_type n | n <- nodes w]) ChatModal.requiredTypes
  /\ (ChatModal.handleSendMessage_check w == None) = isConnected (edges w).
Proof.
move=> w; split; first by [].
by case: (isConnected_threshold w) => _ _ _; apply.
Defined.

(** C5, as stated, fails: the call writes the verdict into the store. *)
Lemma validateWorkflow_writes_isValid :
  let s := Examples.storeWith Examples.fourNodes Examples.pipeline in
  [/\ isValid (currentWorkflow s) = false,
      isValid (currentWorkflow (validateWorkflow s).2) = true
    & (validateWorkflow s).2 <> s].
Proof. by split=> // /(congr1 (fun s => isValid (currentWorkflow s))). Qed.

(** C5, amended.  The call is not pure: it writes its verdict into the
    validity flag of the current workflow, and the store being persisted,
    that write saves the entry "workflow-storage" once more, with the saved
    workflows and the version it had.  The nodes, the edges and every other
    field of the workflow and of the store are as before. *)
Theorem validateWorkflow_frame (s : State) :
  let: (v, s', written) := validateWorkflow_persisted s in
  let w := currentWorkflow s in
  let w' := currentWorkflow s' in
  [/\ isValid w' = v /\ written = [:: partialize s],
      [/\ nodes w' = nodes w, edges w' = edges w, wid w' = wid w & name w' = name w],
      [/\ description w' = description w, createdAt w' = createdAt w
         & updatedAt w' = updatedAt w]
    & [/\ savedWorkflows s' = savedWorkflows s, selectedNode s' = selectedNode s,
          isRunning s' = isRunning s, chatMessages s' = chatMessages s
        & showChat s' = showChat s]].
Proof. by rewrite /validateWorkflow_persisted validateWorkflowE. Qed.

(** C6.  Calling [validateWorkflow] twice, the nodes and edges untouched in
    between, gives the same verdict twice, whatever else happened to the
    store; and a second call right after the first leaves the store as the
    first one left it. *)
Theorem validateWorkflow_twice (s t : State) :
  nodes (currentWorkflow t) = nodes (currentWorkflow (validateWorkflow s).2) ->
  edges (currentWorkflow t) = edges (currentWorkflow (validateWorkflow s).2) ->
  (validateWorkflow t).1 = (validateWorkflow s).1
  /\ (t = (validateWorkflow s).2 -> (validateWorkflow t).2 = t).
Proof.
rewrite !validateWorkflowE /= => same_nodes same_edges.
rewrite same_nodes same_edges; split=> // ->.
by rewrite /with_currentWorkflow /with_isValid.
Qed.

Lemma validateWorkflow_twice_witness :
  let s := Examples.storeWith Examples.fourNodes Examples.pipeline in
  let t := (validateWorkflow s).2 in
  (validateWorkflow t).1 = (validateWorkflow s).1 /\ (validateWorkflow t).2 = t.
Proof.
move=> s t.
case: (@validateWorkflow_twice s t (erefl _) (erefl _)) => same_verdict same_store.
by split; [exact: same_verdict | exact: same_store].
Defined.

End ValidatorFacts.

(** ** Editing the graph on the builder page *)

Module BuilderFacts.
Import WorkflowBuilder.

(** [id] is the id of one of the deleted nodes. *)
Definition deleted (nodesToDelete : seq Node) (id : string) : Prop :=
  exists2 n, List.In n nodesToDelete & node_id n = id.

Lemma deletedP (nodesToDelete : seq Node) (id : string) :
  reflect (deleted nodesToDelete id) (id \in [seq node_id n | n <- nodesToDelete]).
Proof. exact: map_In. Qed.

(** The test of the edge filter in [onNodesDelete]. *)
Definition survives (nodesToDelete : seq Node) (e : Edge) : bool :=
  (source e \notin [seq node_id n | n <- nodesToDelete])
  && (target e \notin [seq node_id n | n <- nodesToDelete]).

Lemma survivesP (nodesToDelete : seq Node) (e : Edge) :
  reflect (~ deleted nodesToDelete (source e) /\ ~ deleted nodesToDelete (target e))
          (survives nodesToDelete e).
Proof.
apply: (iffP andP) => [[/deletedP src /deletedP tgt]|[src tgt]] //.
by split; apply/deletedP.
Qed.

Lemma onNodesDelete_edges (nodesToDelete : seq Node) (s : State) :
  edges (onNodesDelete nodesToDelete s)
  = [seq e <- edges s | survives nodesToDelete e].
Proof. by []. Qed.

Lemma onNodesDelete_nodes (nodesToDelete : seq Node) (s : State) (n : Node) :
  List.In n (nodes (onNodesDelete nodesToDelete s)) ->
  ~ deleted nodesToDelete (node_id n).
Proof.
rewrite /onNodesDelete /=; elim: (nodes s) => [|m ns IH] //=.
case: ifP => [/has_In keep|_]; last exact: IH.
case=> [<-|/IH //] [d Hd Ed]; apply: keep.
by exists d => //; apply/eqP.
Qed.

Example delete_knowledgeBase :
  edges (onNodesDelete [:: Examples.node "k1" "knowledge_base"]
           {| nodes := Examples.fourNodes; edges := Examples.pipeline;
              selectedNode := None; isValidWorkflow := false |})
  = [:: Examples.edge "l1" "o1"].
Proof. by []. Qed.

(** C8.  After [onNodesDelete] no remaining edge starts or ends at a deleted
    node; the remaining edges are the old ones in their old order; and an
    edge whose two endpoints are not deleted is kept, as often as it
    occurred. *)
Theorem onNodesDelete_cascades (nodesToDelete : seq Node) (s : State) (e : Edge) :
  let s' := onNodesDelete nodesToDelete s in
  [/\ e \in edges s' ->
        ~ deleted nodesToDelete (source e) /\ ~ deleted nodesToDelete (target e),
      subseq (edges s') (edges s)
    & ~ deleted nodesToDelete (source e) -> ~ deleted nodesToDelete (target e) ->
        count_mem e (edges s') = count_mem e (edges s)].
Proof.
move=> s'; rewrite /s' {s'} onNodesDelete_edges; split.
- by rewrite mem_filter => /andP [/survivesP].
- exact: filter_subseq.
- move=> src tgt; rewrite count_filter; apply: eq_count => x /=.
  case: eqP => [->|//] /=.
  exact/survivesP.
Qed.

Lemma onNodesDelete_cascades_witness :
  let gone := [:: Examples.node "k1" "knowledge_base"] in
  let s := {| nodes := Examples.fourNodes; edges := Examples.pipeline;
              selectedNode := None; isValidWorkflow := false |} in
  [/\ ~ deleted gone "q1", ~ deleted gone "l1", ~ deleted gone "o1",
      ~ (Examples.edge "q1" "k1" \in edges (onNodesDelete gone s))
    & count_mem (Examples.edge "l1" "o1") (edges (onNodesDelete gone s)) = 1].
Proof.
move=> gone s.
have Hq : ~ deleted gone "q1" by move/deletedP.
have Hl : ~ deleted gone "l1" by move/deletedP.
have Ho : ~ deleted gone "o1" by move/deletedP.
split; [exact: Hq | exact: Hl | exact: Ho | |].
- case: (onNodesDelete_cascades gone s (Examples.edge "q1" "k1")) => H _ _.
  by case/H => _; apply; apply/deletedP.
- case: (onNodesDelete_cascades gone s (Examples.edge "l1" "o1")) => _ _ H.
  by rewrite (H Hl Ho).
Defined.

Example label_of_unknown_type : getNodeLabel "webSearch" = JStr "Unknown".
Proof. by []. Qed.

Lemma getDefaultConfig_knowledgeBase :
  getDefaultConfig "knowledgeBase"
  = JObj [:: ("maxResults", JNum 5); ("similarityThreshold", JNum 0.7)].
Proof. by []. Qed.

Example onDrop_labels :
  [seq field (node_data n) "label"
  | n <- StackBuilder.onDrop "llm_engine" {| pos_x := 0; pos_y := 0 |} "2"
           (StackBuilder.onDrop "knowledge_base" {| pos_x := 0; pos_y := 0 |} "1" [::])]
  = [:: JStr "Knowledge Base"; JStr "Llm Engine"].
Proof. by []. Qed.

(** C9, as stated, fails: a knowledge-base node dropped on the canvas of
    the stack builder is created with an empty configuration, so neither
    default is in it. *)
Lemma onDrop_knowledge_base_without_defaults :
  let dropped :=
    StackBuilder.onDrop "knowledge_base" {| pos_x := 120; pos_y := 80 |}
      "1700000000000" [::] in
  let n := last (Examples.node EmptyString EmptyString) dropped in
  [/\ size dropped = 1, node_type n = "knowledge_base",
      field (node_data n) "config" = JObj [::],
      field (field (node_data n) "config") "maxResults" <> JNum 5
    & field (field (node_data n) "config") "similarityThreshold" <> JNum 0.7].
Proof. by []. Qed.

(** C9, amended.  The node that [addNode] of the workflow builder page
    creates for the type [knowledgeBase] is appended to the nodes with the
    default configuration: [maxResults] is 5 and [similarityThreshold] is
    0.7.  The node that a drop on the stack builder page creates, of
    whatever type, is appended with the empty configuration. *)
Theorem addNode_knowledgeBase_defaults (position : option Position)
    (now : string) (rnd : float * float) (s : State)
    (type : string) (dropAt : Position) (stackNodes : seq Node) :
  let n := newNode "knowledgeBase" position now rnd in
  [/\ nodes (addNode "knowledgeBase" position now rnd s) = rcons (nodes s) n
      /\ node_type n = "knowledgeBase",
      field (node_data n) "config" = getDefaultConfig "knowledgeBase",
      field (field (node_data n) "config") "maxResults" = JNum 5,
      field (field (node_data n) "config") "similarityThreshold" = JNum 0.7
    & type != EmptyString ->
      exists d,
        [/\ StackBuilder.onDrop type dropAt now stackNodes = rcons stackNodes d,
            node_type d = type
          & field (node_data d) "config" = JObj [::]]].
Proof.
rewrite /addNode /setNodes /= cats1; split=> //.
rewrite /StackBuilder.onDrop => /negbTE ->.
by eexists; split; first by rewrite cats1.
Qed.

Lemma addNode_knowledgeBase_defaults_witness :
  "knowledge_base" != EmptyString
  /\ size (StackBuilder.onDrop "knowledge_base" {| pos_x := 0; pos_y := 0 |}
             "1700000000000" Examples.threeNodes) = 4.
Proof.
split; first by [].
case: (@addNode_knowledgeBase_defaults None "1700000000000" (0, 0)%float
         {| nodes := [::]; edges := [::]; selectedNode := None;
            isValidWorkflow := false |}
         "knowledge_base" {| pos_x := 0; pos_y := 0 |} Examples.threeNodes)
  => _ _ _ _ dropped.
by case: (dropped (erefl _)) => d [-> _ _]; rewrite size_rcons.
Defined.

End BuilderFacts.

(** ** Saving, loading and deleting workflows in the store *)

Module StoreFacts.
Import WorkflowStore.

Lemma array_find_none (T : Type) (p : pred T) (arr : seq T) :
  ~~ has p arr -> array_find p arr = None.
Proof. by elim: arr => [|x arr IH] //=; case: (p x). Qed.

Lemma array_find_rcons (T : Type) (p : pred T) (arr : seq T) (x : T) :
  ~~ has p arr -> p x -> array_find p (rcons arr x) = Some x.
Proof. by elim: arr => [|y arr IH] /=; [move=> _ -> | case: (p y)]. Qed.

(** The saved workflows that carry the id [id], in order. *)
Definition withId (id : option string) (ws : seq StoredWorkflow) :=
  filter (fun w => wid w == id) ws.

Definition savedIds (s : State) : seq (option string) :=
  [seq wid w | w <- savedWorkflows s].

Lemma withId_others (id : option string) (ws : seq StoredWorkflow) :
  withId id (filter (fun w => wid w != id) ws) = [::].
Proof.
rewrite /withId -filter_predI; elim: ws => [|w ws IH] //=.
by case: (wid w == id).
Qed.

Lemma withId_kept (id other : option string) (ws : seq StoredWorkflow) :
  other != id ->
  withId other (filter (fun w => wid w != id) ws) = withId other ws.
Proof.
move=> ne; rewrite /withId -filter_predI; apply: eq_filter => w /=.
by case: eqP => [->|//]; rewrite ne.
Qed.

Lemma has_others (id : option string) (ws : seq StoredWorkflow) :
  ~~ has (fun w => wid w == id) (filter (fun w => wid w != id) ws).
Proof. by rewrite -size_filter_gt0 -/(withId _ _) withId_others. Qed.

Lemma ids_filter (id : option string) (ws : seq StoredWorkflow) :
  [seq wid w | w <- filter (fun w => wid w != id) ws]
  = filter (fun i => i != id) [seq wid w | w <- ws].
Proof. by rewrite filter_map. Qed.

Lemma saveCurrentWorkflowE (nowISO : string) (s : State) :
  truthy_id (wid (currentWorkflow s)) ->
  (saveCurrentWorkflow nowISO s).2
  = with_savedWorkflows
      (rcons (filter (fun w => wid w != wid (currentWorkflow s)) (savedWorkflows s))
             (with_updatedAt nowISO (currentWorkflow s))) s.
Proof. by rewrite /saveCurrentWorkflow /bind /get /= => ->. Qed.

Example openExample : State :=
  (createNewWorkflow "Support bot" "Answers from the manual"
     "1700000000000" "2023-11-14T22:13:20.000Z" initialState).2.

(** The saved workflows that carry another id than [id], in order. *)
Definition withoutId (id : option string) (ws : seq StoredWorkflow) :=
  filter (fun w => wid w != id) ws.

(** X1.  Saving the open workflow leaves exactly one saved workflow with
    its id: the open one, stamped with the time of saving, last in the list.
    The saved workflows with other ids are the same list as before, so they
    are unchanged and in their old order, and the open workflow itself is
    not touched. *)
Theorem saveCurrentWorkflow_saved (nowISO : string) (s : State) :
  truthy_id (wid (currentWorkflow s)) ->
  let s' := (saveCurrentWorkflow nowISO s).2 in
  let stamped := with_updatedAt nowISO (currentWorkflow s) in
  [/\ withId (wid (currentWorkflow s)) (savedWorkflows s') = [:: stamped],
      last stamped (savedWorkflows s') = stamped,
      withoutId (wid (currentWorkflow s)) (savedWorkflows s')
        = withoutId (wid (currentWorkflow s)) (savedWorkflows s)
    & currentWorkflow s' = currentWorkflow s].
Proof.
move=> has_id s' stamped; rewrite /s' saveCurrentWorkflowE //=; split=> //.
- by rewrite /withId filter_rcons /= eqxx -/(withId _ _) withId_others.
- by rewrite last_rcons.
- by rewrite /withoutId filter_rcons /= eqxx /= filter_id.
Qed.

(** Two saved workflows; the older one is opened and saved again. *)
Example twoSaved : State :=
  let saved := (saveCurrentWorkflow "2023-11-14T22:14:00.000Z" openExample).2 in
  let other := (createNewWorkflow "Other" "Another stack" "1700000099999"
                  "2023-11-14T22:14:59.999Z" saved).2 in
  let both := (saveCurrentWorkflow "2023-11-14T22:15:30.000Z" other).2 in
  (loadWorkflow "1700000000000" both).2.

Lemma saveCurrentWorkflow_saved_witness :
  let s := twoSaved in
  let s' := (saveCurrentWorkflow "2023-11-14T22:16:00.000Z" s).2 in
  [/\ truthy_id (wid (currentWorkflow s)),
      [seq name w | w <- savedWorkflows s] = [:: "Support bot"; "Other"],
      [seq name w | w <- withoutId (wid (currentWorkflow s)) (savedWorkflows s')]
        = [:: "Other"]
    & [seq name w | w <- withId (wid (currentWorkflow s)) (savedWorkflows s')]
        = [:: "Support bot"]].
Proof.
move=> s s'.
have has_id : truthy_id (wid (currentWorkflow s)) by [].
case: (@saveCurrentWorkflow_saved "2023-11-14T22:16:00.000Z" s has_id)
  => only _ others _.
by split; [exact: has_id | by [] | rewrite others | rewrite only].
Defined.

Lemma loadWorkflowE (workflowId : string) (s : State) :
  (loadWorkflow workflowId s).2
  = if array_find (fun w => wid w == Some workflowId) (savedWorkflows s) is Some w
    then with_currentWorkflow w s else s.
Proof. by rewrite /loadWorkflow /bind /get /=; case: array_find. Qed.

(** X2.  Save, then load by id, whatever was opened or edited in between
    as long as the saved list is the same: the workflow that was open at the
    save is open again, with the time of saving as its [updatedAt]. *)
Theorem save_then_load (nowISO id : string) (s t : State) :
  wid (currentWorkflow s) = Some id ->
  id != EmptyString ->
  savedWorkflows t = savedWorkflows (saveCurrentWorkflow nowISO s).2 ->
  currentWorkflow (loadWorkflow id t).2
  = with_updatedAt nowISO (currentWorkflow s).
Proof.
move=> id_s id_ne same; rewrite loadWorkflowE same saveCurrentWorkflowE /=.
- by rewrite id_s.
- by rewrite id_s array_find_rcons /= ?id_s ?eqxx // has_others.
Qed.

Lemma save_then_load_witness :
  let s := openExample in
  let saved := (saveCurrentWorkflow "2023-11-14T22:14:00.000Z" s).2 in
  let t := (createNewWorkflow "Other" "Another stack" "1700000099999"
              "2023-11-14T22:14:59.999Z" saved).2 in
  [/\ wid (currentWorkflow t) = Some "1700000099999",
      name (currentWorkflow (loadWorkflow "1700000000000" t).2) = "Support bot"
    & updatedAt (currentWorkflow (loadWorkflow "1700000000000" t).2)
      = Some "2023-11-14T22:14:00.000Z"].
Proof.
move=> s saved t.
have load := @save_then_load "2023-11-14T22:14:00.000Z" "1700000000000" s t
               (erefl _) (erefl _) (erefl _).
by split; [by [] | rewrite load | rewrite load].
Defined.

(** X3.  If no two saved workflows share an id, that is still so after
    saving the open workflow and after deleting a workflow. *)
Theorem saved_ids_stay_unique (nowISO workflowId : string) (s : State) :
  uniq (savedIds s) ->
  uniq (savedIds (saveCurrentWorkflow nowISO s).2)
  /\ uniq (savedIds (deleteWorkflow workflowId s).2).
Proof.
move=> uniq_s; split; last by rewrite /savedIds /= ids_filter filter_uniq.
case has_id: (truthy_id (wid (currentWorkflow s))); last first.
  by rewrite /saveCurrentWorkflow /bind /get /= has_id.
rewrite saveCurrentWorkflowE // /savedIds /= map_rcons rcons_uniq ids_filter.
by rewrite mem_filter eqxx /= filter_uniq.
Qed.

Lemma saved_ids_stay_unique_witness :
  let s := (saveCurrentWorkflow "2023-11-14T22:14:00.000Z" openExample).2 in
  uniq (savedIds s)
  /\ uniq (savedIds (saveCurrentWorkflow "2023-11-14T22:15:00.000Z" s).2).
Proof.
move=> s; have uniq_s : uniq (savedIds s) by [].
split; first exact: uniq_s.
by case: (@saved_ids_stay_unique "2023-11-14T22:15:00.000Z" "none" s uniq_s).
Defined.

(** X4.  Deleting by id removes every saved workflow with that id; the
    saved workflows with other ids are the same list as before, so none of
    them is lost and their order is kept; the open workflow is not touched;
    loading the deleted id afterwards changes nothing. *)
Theorem deleteWorkflow_removes (workflowId : string) (s : State) :
  let s' := (deleteWorkflow workflowId s).2 in
  [/\ withId (Some workflowId) (savedWorkflows s') = [::],
      withoutId (Some workflowId) (savedWorkflows s')
        = withoutId (Some workflowId) (savedWorkflows s),
      currentWorkflow s' = currentWorkflow s
    & (loadWorkflow workflowId s').2 = s'].
Proof.
move=> s'; rewrite /s' {s'}; split=> //.
- exact: withId_others.
- by rewrite /withoutId /= filter_id.
- by rewrite loadWorkflowE /= array_find_none // has_others.
Qed.

Example delete_one_of_two :
  let s := (saveCurrentWorkflow "2023-11-14T22:16:00.000Z" twoSaved).2 in
  [seq name w | w <- savedWorkflows s] = [:: "Other"; "Support bot"]
  /\ [seq name w | w <- savedWorkflows (deleteWorkflow "1700000099999" s).2]
     = [:: "Support bot"].
Proof. by []. Qed.

(** X5.  Deleting the workflow that is open does not close it: it stays
    the open workflow, and the next save puts it back among the saved ones. *)
Theorem delete_then_save_restores (nowISO id : string) (s : State) :
  wid (currentWorkflow s) = Some id ->
  id != EmptyString ->
  let deleted := (deleteWorkflow id s).2 in
  let saved := (saveCurrentWorkflow nowISO deleted).2 in
  [/\ withId (Some id) (savedWorkflows deleted) = [::],
      currentWorkflow deleted = currentWorkflow s
    & withId (Some id) (savedWorkflows saved)
      = [:: with_updatedAt nowISO (currentWorkflow s)]].
Proof.
move=> id_s id_ne deleted saved; split=> //; first exact: withId_others.
rewrite /saved saveCurrentWorkflowE /= ?id_s //.
by rewrite /withId filter_rcons /= id_s eqxx -/(withId _ _) withId_others.
Qed.

Lemma delete_then_save_restores_witness :
  let s := (saveCurrentWorkflow "2023-11-14T22:14:00.000Z" openExample).2 in
  let deleted := (deleteWorkflow "1700000000000" s).2 in
  size (savedWorkflows deleted) = 0
  /\ size (withId (Some "1700000000000")
             (savedWorkflows (saveCurrentWorkflow "2023-11-14T22:16:00.000Z" deleted).2))
     = 1.
Proof.
move=> s deleted; split; first by [].
by case: (@delete_then_save_restores "2023-11-14T22:16:00.000Z" "1700000000000" s
            (erefl _) (erefl _)) => _ _ ->.
Defined.

(** X6.  Saving without an open workflow, that is with a [null] or empty
    id, changes nothing; and a save never changes anything but the list of
    saved workflows. *)
Theorem saveCurrentWorkflow_frame (nowISO : string) (s : State) :
  let s' := (saveCurrentWorkflow nowISO s).2 in
  [/\ ~~ truthy_id (wid (currentWorkflow s)) -> s' = s,
      currentWorkflow s' = currentWorkflow s,
      chatMessages s' = chatMessages s
    & [/\ selectedNode s' = selectedNode s, isRunning s' = isRunning s
        & showChat s' = showChat s]].
Proof.
rewrite /saveCurrentWorkflow /bind /get /=.
by case: (truthy_id _).
Qed.

Lemma saveCurrentWorkflow_frame_witness :
  ~~ truthy_id (wid (currentWorkflow initialState))
  /\ (saveCurrentWorkflow "2023-11-14T22:14:00.000Z" initialState).2 = initialState.
Proof.
split; first by [].
by case: (saveCurrentWorkflow_frame "2023-11-14T22:14:00.000Z" initialState) => ->.
Defined.

(** X7.  [reset] puts every field back to its first value except the
    saved workflows, which it keeps; a second reset changes nothing more;
    and each saved workflow can be loaded afterwards as before. *)
Theorem reset_keeps_saved (s : State) :
  let s' := (reset s).2 in
  [/\ s' = with_savedWorkflows (savedWorkflows s) initialState,
      (reset s').2 = s'
    & forall (workflowId : string) (w : StoredWorkflow),
        array_find (fun w => wid w == Some workflowId) (savedWorkflows s) = Some w ->
        currentWorkflow (loadWorkflow workflowId s').2 = w].
Proof.
move=> s'; split=> // workflowId w found.
by rewrite /s' loadWorkflowE /= found.
Qed.

Lemma reset_keeps_saved_witness :
  let s := (saveCurrentWorkflow "2023-11-14T22:14:00.000Z" openExample).2 in
  name (currentWorkflow (reset s).2) = EmptyString
  /\ name (currentWorkflow (loadWorkflow "1700000000000" (reset s).2).2)
     = "Support bot".
Proof.
move=> s; split; first by [].
case: (reset_keeps_saved s) => _ _ loads.
by rewrite (loads "1700000000000" _ (erefl _)).
Defined.

(** X8.  The validity flag is the verdict of the last validation: editing
    the nodes or the edges afterwards leaves the flag where it was, even
    when the edited graph would get the other verdict. *)
Theorem isValid_is_last_verdict (ns : seq Node) (es : seq Edge) (s : State) :
  let validated := (validateWorkflow s).2 in
  [/\ isValid (currentWorkflow validated) = (validateWorkflow s).1,
      isValid (currentWorkflow (updateWorkflowNodes ns validated).2)
        = (validateWorkflow s).1
    & isValid (currentWorkflow (updateWorkflowEdges es validated).2)
        = (validateWorkflow s).1].
Proof.
move=> validated; split=> //.
by rewrite /updateWorkflowEdges /set /=; case: eqP.
Qed.

Example stale_flag :
  let s := Examples.storeWith Examples.fourNodes Examples.pipeline in
  let edited := (updateWorkflowEdges [::] (validateWorkflow s).2).2 in
  isValid (currentWorkflow edited) = true /\ (validateWorkflow edited).1 = false.
Proof. by []. Qed.

End StoreFacts.

(** ** The progress events and the fallback texts of the chat service *)

Module ProgressFacts.
Import ChatService ChatServiceFacts.

Definition starting (steps : seq Step) : Progress :=
  {| p_steps := steps; currentStep := 0; status := "starting"; p_error := None |}.

Definition processing (steps : seq Step) (k : nat) : Progress :=
  {| p_steps := steps; currentStep := k; status := "processing"; p_error := None |}.

Definition completed (steps : seq Step) : Progress :=
  {| p_steps := steps; currentStep := size steps; status := "completed";
     p_error := None |}.

(** The timer moves the current step up by one per firing, and stops at
    the last step but one. *)
Lemma ticks_on (steps : seq Step) (k cur : nat) (trace : seq Progress) :
  cur <= size steps - 1 ->
  iter k (tick true steps) (cur, trace)
  = (minn (cur + k) (size steps - 1),
     trace ++ [seq processing steps j
              | j <- iota cur.+1 (minn (cur + k) (size steps - 1) - cur)])%SEQ.
Proof.
set m := size steps - 1.
elim: k cur trace => [|k IH] cur trace le_cur.
  by rewrite addn0 (minn_idPl le_cur) subnn /= cats0.
rewrite iterSr /tick -/m; case: ltnP => [lt_cur|le_m].
- have le_min : cur < minn (cur + k.+1) m.
    by rewrite leq_min lt_cur andbT -addn1 leq_add2l.
  by rewrite IH // addSnnS -(subnSK le_min) /= cat_rcons.
- have eq_cur : cur = m by apply/eqP; rewrite eqn_leq le_cur le_m.
  rewrite IH // eq_cur.
  by rewrite !(minn_idPr _) ?leq_addr.
Qed.

(** X9.  With a progress callback, [sendMessage] reports: the start at step
    0; then one "processing" event per firing of the timer, counting up from
    1, and none beyond the last step but one however long the backend takes.
    Then, when the call succeeded, "completed" at the number of steps (and
    after it one "error" when the body was [null]), and nothing more.  When
    the call failed, "error" with the message; the timer is not stopped
    then, and goes on reporting "processing" steps where it was, up to the
    last step but one. *)
Theorem sendMessage_progress (post : ExecuteRequest -> PostResult)
    (ticks ticksAfter : nat) (typeError : string)
    (pick : 'I_4) (message : string) (workflow : option Workflow) :
  let steps := getWorkflowSteps (convertWorkflowFormat workflow) in
  let shown := minn ticks (size steps - 1) in
  (sendMessage post ticks ticksAfter typeError pick message workflow true).2
  = (starting steps
       :: [seq processing steps k | k <- iota 1 shown]
       ++ match post (requestOf message workflow) with
          | Fulfilled data =>
              completed steps
                :: (if nullish data then [:: errorEvent typeError] else [::])
          | Failed msg =>
              errorEvent msg
                :: [seq processing steps k
                   | k <- iota shown.+1
                            (minn (shown + ticksAfter) (size steps - 1) - shown)]
          end)%SEQ.
Proof.
move=> steps shown; rewrite /sendMessage -/steps /requestOf /=.
rewrite (@ticks_on steps ticks 0 [:: starting steps]) // add0n subn0 -/shown.
case: (post _) => [data|msg] /=.
  by case: (nullish data); rewrite /= -!cats1 -?catA.
rewrite ticks_on; first exact: geq_minr.
by rewrite /= cat_rcons.
Qed.

Lemma getWorkflowSteps_size (workflow : BackendWorkflow) :
  2 <= size (getWorkflowSteps workflow) <= 4.
Proof.
rewrite /getWorkflowSteps.
by case: (has _ _); case: (has _ _).
Qed.

Example progress_of_slow_backend :
  [seq (currentStep p, status p)
  | p <- (sendMessage (fun _ => Fulfilled (JObj [::])) 10 0 EmptyString ord0
            "hi" None true).2]
  = [:: (0, "starting"); (1, "processing"); (2, "processing"); (3, "completed")].
Proof. by []. Qed.

Example progress_after_failure :
  [seq (currentStep p, status p)
  | p <- (sendMessage (fun _ => Failed "Network Error") 1 5 EmptyString ord0
            "hi" None true).2]
  = [:: (0, "starting"); (1, "processing"); (0, "error"); (2, "processing")].
Proof. by []. Qed.

(** Which type strings end up as a given backend type. *)
Lemma knowledge_base_type (type : string) :
  is_str (convertedType type) "knowledge_base"
  = (type == "knowledgeBase") || (type == "knowledge_base").
Proof.
rewrite /convertedType.
case: eqP => [->|_] //; case: eqP => [->|_] //.
case: eqP => [->|_] //; case: eqP => [->|_] //.
by case: ifP => //=; case: eqP => [->|].
Qed.

Lemma llm_engine_type (type : string) :
  is_str (convertedType type) "llm_engine"
  = (type == "llmEngine") || (type == "llm_engine").
Proof.
rewrite /convertedType.
case: eqP => [->|_] //; case: eqP => [->|_] //.
case: eqP => [->|_] //; case: eqP => [->|_] //.
by case: ifP => //=; case: eqP => [->|].
Qed.

(** X10.  The steps shown for a workflow that comes with its nodes: the
    knowledge-base step appears exactly when a node has the editor's type
    [knowledgeBase] or already the backend's [knowledge_base], the
    generation step exactly when one has [llmEngine] or [llm_engine]. *)
Theorem steps_of_converted_workflow (w : Workflow) (ns : seq Node) :
  wf_nodes w = Some ns ->
  getWorkflowSteps (convertWorkflowFormat (Some w))
  = stepList
      (has (fun n => (node_type n == "knowledgeBase")
                     || (node_type n == "knowledge_base")) ns)
      (has (fun n => (node_type n == "llmEngine")
                     || (node_type n == "llm_engine")) ns).
Proof.
move=> nodes_w.
have kb : has (fun n => is_str (bn_type n) "knowledge_base")
              [seq convertNode n | n <- ns]
          = has (fun n => (node_type n == "knowledgeBase")
                          || (node_type n == "knowledge_base")) ns.
  rewrite has_map; apply: eq_has => n.
  by rewrite -knowledge_base_type -convertNode_type.
have llm : has (fun n => is_str (bn_type n) "llm_engine")
               [seq convertNode n | n <- ns]
           = has (fun n => (node_type n == "llmEngine")
                           || (node_type n == "llm_engine")) ns.
  rewrite has_map; apply: eq_has => n.
  by rewrite -llm_engine_type -convertNode_type.
rewrite /getWorkflowSteps (convertWorkflowFormat_nodes nodes_w) kb llm.
by case: (has _ ns); case: (has _ ns).
Qed.

Lemma steps_of_converted_workflow_witness :
  let ns := [:: Examples.node "a" "userQuery"; Examples.node "b" "knowledgeBase";
                Examples.node "c" "output"] in
  let w := {| wf_nodes := Some ns; wf_connections := None |} in
  wf_nodes w = Some ns
  /\ [seq title s | s <- getWorkflowSteps (convertWorkflowFormat (Some w))]
     = [:: "Processing Query"; "Searching Knowledge Base"; "Finalizing Output"].
Proof.
move=> ns w; split; first by [].
by rewrite (@steps_of_converted_workflow w ns (erefl _)).
Defined.

(** X11.  Every fallback text quotes the user's message, between double
    quotes, word for word. *)
Theorem fallback_quotes_message (pick : 'I_4) (message : string) :
  exists before, exists after,
    generateFallbackResponse pick message
    = JStr (before ++ dquote ++ message ++ dquote ++ after).
Proof.
rewrite /generateFallbackResponse /responses.
by case: pick => [[|[|[|[|k]]]] lt_k] //; cbv [nth nat_of_ord];
   eexists; eexists; reflexivity.
Qed.

End ProgressFacts.

(** ** More on editing the graph on the builder page *)

Module EditingFacts.
Import WorkflowBuilder.

Definition nodeIds (s : State) : seq string := [seq node_id n | n <- nodes s].

(** Every edge starts and ends at a node of the canvas. *)
Definition wellFormed (s : State) : bool :=
  all (fun e => (source e \in nodeIds s) && (target e \in nodeIds s)) (edges s).

Lemma has_id (id : string) (ns : seq Node) :
  has (fun n => node_id n == id) ns = (id \in [seq node_id n | n <- ns]).
Proof.
elim: ns => [|n ns IH] //=.
by rewrite in_cons IH eq_sym.
Qed.

Lemma onNodesDelete_ids (nodesToDelete : seq Node) (s : State) :
  nodeIds (onNodesDelete nodesToDelete s)
  = [seq id <- nodeIds s | id \notin [seq node_id n | n <- nodesToDelete]].
Proof.
rewrite /nodeIds /onNodesDelete /= filter_map; congr [seq node_id n | n <- _].
by apply: eq_filter => n /=; rewrite has_id.
Qed.

(** X12.  Deleting nodes keeps the graph well formed: if every edge started
    and ended at a node of the canvas before, every remaining edge starts
    and ends at a remaining node.  The remaining nodes are those whose id is
    not the id of a deleted node, in their old order. *)
Theorem onNodesDelete_wellFormed (nodesToDelete : seq Node) (s : State) :
  wellFormed s ->
  wellFormed (onNodesDelete nodesToDelete s)
  /\ nodeIds (onNodesDelete nodesToDelete s)
     = [seq id <- nodeIds s | id \notin [seq node_id n | n <- nodesToDelete]].
Proof.
move=> wf_s; split; last exact: onNodesDelete_ids.
rewrite /wellFormed onNodesDelete_ids /onNodesDelete /= all_filter.
apply: sub_all wf_s => e /andP [src tgt].
by apply/implyP => /andP [src_kept tgt_kept]; rewrite !mem_filter src_kept tgt_kept src tgt.
Qed.

Lemma onNodesDelete_wellFormed_witness :
  let s := {| nodes := Examples.fourNodes; edges := Examples.pipeline;
              selectedNode := None; isValidWorkflow := false |} in
  wellFormed s
  /\ wellFormed (onNodesDelete [:: Examples.node "k1" "knowledge_base"] s).
Proof.
move=> s; have wf_s : wellFormed s by [].
split; first exact: wf_s.
by case: (onNodesDelete_wellFormed [:: Examples.node "k1" "knowledge_base"] wf_s).
Defined.

(** X13.  Adding a node, deleting edges and editing a node's configuration
    keep the graph well formed too. *)
Theorem edits_keep_wellFormed (s : State) (type now : string)
    (position : option Position) (rnd : float * float)
    (edgesToDelete : seq Edge) (nodeId : string) (newData : jsval) :
  wellFormed s ->
  [/\ wellFormed (addNode type position now rnd s),
      wellFormed (onEdgesDelete edgesToDelete s)
    & wellFormed (updateNodeConfig nodeId newData s)].
Proof.
move=> wf_s; split.
- rewrite /wellFormed /nodeIds /addNode /= map_cat.
  apply: sub_all wf_s => e /andP [src tgt].
  by rewrite !mem_cat src tgt.
- rewrite /wellFormed /onEdgesDelete /= all_filter.
  by apply: sub_all wf_s => e ends; apply/implyP => _; exact: ends.
- rewrite /wellFormed /nodeIds /updateNodeConfig /= -map_comp.
  rewrite (eq_map (g := node_id)) //.
  by move=> n /=; case: ifP.
Qed.

Lemma edits_keep_wellFormed_witness :
  let s := {| nodes := Examples.fourNodes; edges := Examples.pipeline;
              selectedNode := None; isValidWorkflow := false |} in
  wellFormed s
  /\ wellFormed (onEdgesDelete [:: Examples.edge "k1" "l1"] s).
Proof.
move=> s; have wf_s : wellFormed s by [].
split; first exact: wf_s.
by case: (@edits_keep_wellFormed s "output" "1700000000000" None (0, 0)%float
            [:: Examples.edge "k1" "l1"] "q1" JNull wf_s).
Defined.

(** X14.  After [onEdgesDelete] no remaining edge has the id of a deleted
    edge; the remaining edges are old ones in their old order; an edge
    whose id is not the id of a deleted edge is kept as often as it
    occurred; and the nodes are untouched. *)
Theorem onEdgesDelete_removes (edgesToDelete : seq Edge) (s : State) (e : Edge) :
  let s' := onEdgesDelete edgesToDelete s in
  let gone := [seq edge_id d | d <- edgesToDelete] in
  [/\ e \in edges s' -> edge_id e \notin gone,
      subseq (edges s') (edges s),
      edge_id e \notin gone -> count_mem e (edges s') = count_mem e (edges s)
    & nodes s' = nodes s].
Proof.
have has_edge_id (x : Edge) :
    has (fun d => edge_id d == edge_id x) edgesToDelete
    = (edge_id x \in [seq edge_id d | d <- edgesToDelete]).
  elim: edgesToDelete => [|d ds IH] //=.
  by rewrite in_cons IH eq_sym.
move=> s' gone; rewrite /s' /gone /onEdgesDelete /=; split=> //.
- by rewrite mem_filter has_edge_id => /andP [].
- exact: filter_subseq.
- move=> kept; rewrite count_filter; apply: eq_count => x /=.
  by case: eqP => [->|//] /=; rewrite has_edge_id kept.
Qed.

Lemma onEdgesDelete_removes_witness :
  let s := {| nodes := Examples.fourNodes; edges := Examples.pipeline;
              selectedNode := None; isValidWorkflow := false |} in
  let s' := onEdgesDelete [:: Examples.edge "k1" "l1"] s in
  edge_id (Examples.edge "l1" "o1") \notin [:: edge_id (Examples.edge "k1" "l1")]
  /\ count_mem (Examples.edge "l1" "o1") (edges s') = 1.
Proof.
move=> s s'; split; first by [].
by case: (onEdgesDelete_removes [:: Examples.edge "k1" "l1"] s
            (Examples.edge "l1" "o1")) => _ _ ->.
Defined.

Lemma updateNodeConfig_nodes (nodeId : string) (newData : jsval) (s : State) :
  nodes (updateNodeConfig nodeId newData s)
  = [seq if node_id n == nodeId then with_data newData n else n | n <- nodes s].
Proof. by []. Qed.

(** X15.  [updateNodeConfig] replaces the data of the nodes with the given
    id and nothing else: the number of nodes, their ids, types and
    positions, the data of the other nodes and the edges stay, and so does
    the verdict of the page's validation. *)
Theorem updateNodeConfig_effect (nodeId : string) (newData : jsval) (s : State) :
  let s' := updateNodeConfig nodeId newData s in
  [/\ [seq (node_id n, node_type n, node_position n) | n <- nodes s']
        = [seq (node_id n, node_type n, node_position n) | n <- nodes s],
      [seq node_data n | n <- nodes s']
        = [seq if node_id n == nodeId then newData else node_data n | n <- nodes s],
      edges s' = edges s
    & (validateWorkflow s').1 = (validateWorkflow s).1].
Proof.
move=> s'; rewrite /s' {s'}.
have same_types :
    [seq node_type n | n <- nodes (updateNodeConfig nodeId newData s)]
    = [seq node_type n | n <- nodes s].
  rewrite updateNodeConfig_nodes -map_comp; apply: eq_map => n /=.
  by case: ifP.
split=> //.
- rewrite updateNodeConfig_nodes -map_comp; apply: eq_map => n /=.
  by case: ifP.
- rewrite updateNodeConfig_nodes -map_comp; apply: eq_map => n /=.
  by case: ifP.
- rewrite /validateWorkflow /=.
  by rewrite -!(has_map node_type (fun t => t == _)) same_types.
Qed.

(** X16.  For [updateNodeConfig] the last write wins, writes to different
    ids can be swapped, and a write to an id that no node has changes
    nothing. *)
Theorem updateNodeConfig_writes (id1 id2 : string) (d1 d2 : jsval) (s : State) :
  [/\ updateNodeConfig id1 d2 (updateNodeConfig id1 d1 s) = updateNodeConfig id1 d2 s,
      id1 != id2 ->
        updateNodeConfig id2 d2 (updateNodeConfig id1 d1 s)
        = updateNodeConfig id1 d1 (updateNodeConfig id2 d2 s)
    & id1 \notin nodeIds s -> updateNodeConfig id1 d1 s = s].
Proof.
split.
- rewrite /updateNodeConfig /setNodes /= -map_comp; congr Build_State.
  by apply: eq_map => n /=; case e1: (node_id n == id1); rewrite /= e1.
- move=> ne; rewrite /updateNodeConfig /setNodes /= -!map_comp; congr Build_State.
  apply: eq_map => n /=.
  case e1: (node_id n == id1); case e2: (node_id n == id2) => /=;
    rewrite ?e1 ?e2 //.
  by move: ne; rewrite -(eqP e1) (eqP e2) eqxx.
- case: s => ns es sel valid; rewrite /nodeIds /updateNodeConfig /setNodes /= => absent.
  congr Build_State; elim: ns absent => [|n ns IH] //=.
  rewrite in_cons negb_or eq_sym => /andP [/negbTE -> /IH ->].
  by [].
Qed.

Lemma updateNodeConfig_writes_witness :
  let s := {| nodes := Examples.fourNodes; edges := Examples.pipeline;
              selectedNode := None; isValidWorkflow := false |} in
  [/\ "q1" != "l1", "x9" \notin nodeIds s,
      updateNodeConfig "l1" JNull (updateNodeConfig "q1" (JBool true) s)
      = updateNodeConfig "q1" (JBool true) (updateNodeConfig "l1" JNull s)
    & updateNodeConfig "x9" JNull s = s].
Proof.
move=> s.
case: (updateNodeConfig_writes "q1" "l1" (JBool true) JNull s) => _ swap _.
case: (updateNodeConfig_writes "x9" "l1" JNull JNull s) => _ _ noop.
by split; [by [] | by [] | exact: swap | exact: noop].
Defined.

(** X17.  What the page sends through the chat service: one backend node
    per node of the canvas, with the same id, in order, and one connection
    per edge, with the same ends and handles, in order.  The default chain
    is never put in place of the canvas, not even of an empty one. *)
Theorem canvas_request (s : State) :
  let sent := ChatService.convertWorkflowFormat (Some (currentWorkflowOf s)) in
  [/\ [seq bn_id n | n <- bw_nodes sent] = [seq node_id n | n <- nodes s],
      [seq bn_type n | n <- bw_nodes sent]
        = [seq ChatServiceFacts.convertedType (node_type n) | n <- nodes s],
      [seq (conn_source c, conn_target c, conn_sourceHandle c, conn_targetHandle c)
      | c <- bw_connections sent]
        = [seq (source e, target e, sourceHandle e, targetHandle e) | e <- edges s]
    & nodes s = [::] ->
      [seq ChatService.title t | t <- ChatService.getWorkflowSteps sent]
      = [:: "Processing Query"; "Finalizing Output"]].
Proof.
move=> sent; rewrite /sent /ChatService.convertWorkflowFormat /=; split.
- by rewrite -!map_comp.
- rewrite -!map_comp; apply: eq_map => n.
  by rewrite /= -ChatServiceFacts.convertNode_type.
- by rewrite -map_comp.
- by rewrite /ChatService.getWorkflowSteps /= => ->.
Qed.

Lemma canvas_request_witness :
  let s := {| nodes := [::]; edges := [::];
              selectedNode := None; isValidWorkflow := false |} in
  size (ChatService.getWorkflowSteps
          (ChatService.convertWorkflowFormat (Some (currentWorkflowOf s)))) = 2
  /\ size (ChatService.getWorkflowSteps (ChatService.convertWorkflowFormat None)) = 3.
Proof.
move=> s; split; last by [].
case: (canvas_request s) => _ _ _ empty.
by rewrite -(size_map ChatService.title) empty.
Defined.

(** The session holds both the nodes and the edges of a workflow. *)
Definition sessionComplete (sessionStorage : Storage) : bool :=
  stored (sessionStorage "workflowNodes") && stored (sessionStorage "workflowEdges").

(** X18.  [loadWorkflowFromStorage] never mixes the two stores.  When the
    session holds both nodes and edges, the saved workflow is not read, and
    the result is the parsed session, or the empty workflow when either
    text does not parse.  When the session lacks either of them, nothing of
    the session is used. *)
Theorem loadWorkflowFromStorage_one_store
    (parseNodes : string -> option (seq Node))
    (parseEdges : string -> option (seq Edge))
    (session session' saved saved' : Storage) (n e : string) :
  [/\ sessionComplete session ->
        loadWorkflowFromStorage parseNodes parseEdges session saved
        = loadWorkflowFromStorage parseNodes parseEdges session saved',
      sessionComplete session ->
      session "workflowNodes" = Some n -> session "workflowEdges" = Some e ->
        loadWorkflowFromStorage parseNodes parseEdges session saved
        = (if (parseNodes n, parseEdges e) is (Some ns, Some es) then (ns, es)
           else ([::], [::]))
    & ~~ sessionComplete session -> ~~ sessionComplete session' ->
        loadWorkflowFromStorage parseNodes parseEdges session saved
        = loadWorkflowFromStorage parseNodes parseEdges session' saved].
Proof.
rewrite /sessionComplete /loadWorkflowFromStorage; split.
- by case/andP => -> ->.
- case/andP => sn se eq_n eq_e; rewrite sn se /=.
  move: sn se; rewrite eq_n eq_e /= => -> ->.
  by case: (parseNodes n) => [ns|]; case: (parseEdges e).
- by rewrite !negb_and => -> ->.
Qed.

Lemma loadWorkflowFromStorage_one_store_witness :
  let parseNodes := fun text : string =>
    if text == "[q]" then Some [:: Examples.node "q1" "userQuery"] else None in
  let parseEdges := fun text : string =>
    if text == "[]" then Some [::] else None in
  let half : Storage := fun key =>
    if key == "workflowNodes" then Some "[q]" else None in
  let none : Storage := fun _ => None in
  [/\ ~~ sessionComplete half, ~~ sessionComplete none
    & loadWorkflowFromStorage parseNodes parseEdges half none = ([::], [::])].
Proof.
move=> parseNodes parseEdges half none.
case: (@loadWorkflowFromStorage_one_store parseNodes parseEdges half none none none
         EmptyString EmptyString) => _ _ ignored.
by split; [by [] | by [] | rewrite (ignored (erefl _) (erefl _))].
Defined.

End EditingFacts.

(** ** The validators outside the store *)

Section TypeTests.

Lemma has_type (type : string) (ns : seq Node) :
  has (fun n => node_type n == type) ns = (type \in [seq node_type n | n <- ns]).
Proof.
elim: ns => [|n ns IH] //=.
by rewrite in_cons IH eq_sym.
Qed.

Lemma array_find_has (T : Type) (p : pred T) (arr : seq T) :
  isSome (array_find p arr) = has p arr.
Proof. by elim: arr => [|x arr IH] //=; case: (p x). Qed.

End TypeTests.

Module ServiceFacts.
Import StackService.

(** X19.  The stack service's structure check gives the verdict of the
    store's validation and of the chat modal's gate on the same graph; it
    reports an error exactly when the verdict is negative; and its second
    message, about user query and output alone, is never the one returned. *)
Theorem validateWorkflowStructure_agrees (s : WorkflowStore.State) :
  let w := WorkflowStore.currentWorkflow s in
  let r := validateWorkflowStructure (WorkflowStore.nodes w) (WorkflowStore.edges w) in
  [/\ valid r = (WorkflowStore.validateWorkflow s).1,
      valid r = (ChatModal.handleSendMessage_check w == None),
      valid r = (error r == None)
    & error r != Some "User Query and Output components are required."].
Proof.
move=> w r; rewrite /r /validateWorkflowStructure /ChatModal.handleSendMessage_check.
rewrite ValidatorFacts.validateWorkflowE /= -/w !has_type !array_find_has !has_type.
rewrite /WorkflowStore.isConnected !andbT.
case: (_ \in _) => //=; case: (_ \in _) => //=.
case: (_ \in _) => //=; case: (_ \in _) => //=.
by rewrite ltnNge; case: (2 < size _).
Qed.

End ServiceFacts.

(** ** Sending a message from the chat modal *)

Module ChatModalFacts.
Import ChatModal.

Section Send.

Variable fetch : ChatService.ExecuteRequest -> FetchResult.
Variables (now : float) (nowISO : string) (later : float) (laterISO : string).

Definition send := handleSendMessage fetch now nowISO later laterISO.

(** The request that goes out for a message on the stored workflow. *)
Definition requestFor (trimmed : string) (s : WorkflowStore.State)
    : ChatService.ExecuteRequest :=
  {| ChatService.user_id := "chat-user";
     ChatService.query := trimmed;
     ChatService.req_workflow := workflowData (WorkflowStore.currentWorkflow s) |}.

Lemma gate_verdict (s : WorkflowStore.State) :
  (handleSendMessage_check (WorkflowStore.currentWorkflow s) == None)
  = (WorkflowStore.validateWorkflow s).1.
Proof.
by apply/idP/idP => [/ValidatorFacts.chatGateP /ValidatorFacts.verdictP
                    |/ValidatorFacts.verdictP /ValidatorFacts.chatGateP].
Qed.

(** X20.  The chat modal calls the backend exactly when the message is not
    blank, no request is pending, and the store's validation accepts the
    stored workflow.  The request then carries the trimmed message and one
    node per stored node, with its id and its type unchanged. *)
Theorem handleSendMessage_sends (trimmed : string) (isLoading : bool)
    (s : WorkflowStore.State) :
  let sent := (send trimmed isLoading s).1 in
  [/\ isSome sent
      = [&& trimmed != EmptyString, ~~ isLoading
          & (WorkflowStore.validateWorkflow s).1],
      sent = (if isSome sent then Some (requestFor trimmed s) else None)
    & [seq (bn_id n, bn_type n) | n <- bw_nodes (workflowData (WorkflowStore.currentWorkflow s))]
      = [seq (node_id n, JStr (node_type n))
        | n <- WorkflowStore.nodes (WorkflowStore.currentWorkflow s)]].
Proof.
move=> sent; rewrite /sent {sent} -gate_verdict /send /handleSendMessage -map_comp.
case: (trimmed == EmptyString) => //=; case: isLoading => //=.
case: (handleSendMessage_check _) => [content|] //=.
by case: (fetch _).
Qed.

(** The [type] fields of the messages the call added to the chat. *)
Definition addedTypes (trimmed : string) (isLoading : bool)
    (s : WorkflowStore.State) : seq jsval :=
  if (trimmed == EmptyString) || isLoading then [::]
  else if ~~ (WorkflowStore.validateWorkflow s).1 then [:: JStr "system"]
  else [:: JStr "user";
           if fetch (requestFor trimmed s) is FetchOk _ then JStr "bot"
           else JStr "system"].

(** X21.  What the call adds to the chat, after the messages that were
    there: nothing for a blank message or while a request is pending; one
    system message when the workflow is rejected; else the user's message
    and then one reply, from the bot when the backend answered and from the
    system when it did not.  The stored workflows are never touched. *)
Theorem handleSendMessage_chat (trimmed : string) (isLoading : bool)
    (s : WorkflowStore.State) :
  let s' := (send trimmed isLoading s).2 in
  exists added : seq jsval,
    [/\ WorkflowStore.chatMessages s' = (WorkflowStore.chatMessages s ++ added)%SEQ,
        [seq field m "type" | m <- added] = addedTypes trimmed isLoading s,
        WorkflowStore.currentWorkflow s' = WorkflowStore.currentWorkflow s
      & WorkflowStore.savedWorkflows s' = WorkflowStore.savedWorkflows s].
Proof.
move=> s'; rewrite /s' {s'} /addedTypes -gate_verdict /send /handleSendMessage /requestFor.
case: (trimmed == EmptyString) => /=; first by exists [::]; rewrite cats0.
case: isLoading => /=; first by exists [::]; rewrite cats0.
case: (handleSendMessage_check _) => [content|] /=.
  by eexists; split; first by rewrite -cats1.
by case: (fetch _) => [data|status errorData|msg] /=;
   eexists; split; try by rewrite -!cats1 -catA.
Qed.

End Send.

Example rejected_message_is_not_sent :
  (send (fun _ => FetchThrew "down") 1 "t1" 2 "t2" "hello" false
     (Examples.storeWith Examples.threeNodes Examples.triangle)).1 = None.
Proof. by []. Qed.

End ChatModalFacts.

(** ** The floating chat button: detailed validation and the output node *)

Module ChatButtonFacts.
Import FloatingChatButton.

(** A loop that pushes one message for each node failing a test pushes
    nothing exactly when every node passes. *)
Lemma forEachIndexed_nil (fails : pred Node) (message : nat -> string)
    (index : nat) (ns : seq Node) :
  (size (forEachIndexed
           (fun node i => if fails node then [:: message i] else [::]) index ns)
   == 0)
  = all (fun node => ~~ fails node) ns.
Proof.
elim: ns index => [|n ns IH] index //=.
by case: (fails n) => //=; rewrite IH.
Qed.

(** The node carries an API key in its configuration. *)
Definition hasApiKey (node : Node) : bool := truthy (field (configOf node) "apiKey").

Lemma size_filter_eq0 (p : pred Node) (ns : seq Node) :
  (size [seq n <- ns | p n] == 0) = ~~ has p ns.
Proof. by rewrite -leqn0 leqNgt size_filter_gt0. Qed.

(** X22.  The detailed validation passes exactly when the quick validation
    of the button passes and every LLM engine node carries an API key; it
    lists an error exactly when it fails, gives a summary exactly when it
    passes, and no warning changes the verdict. *)
Theorem validateWorkflowDetailed_verdict (nodes : seq Node) (edges : seq Edge) :
  let v := validateWorkflowDetailed nodes edges in
  [/\ isValid v
      = validateWorkflow nodes edges
        && all hasApiKey [seq n <- nodes | node_type n == "llm_engine"],
      isValid v = (size (errors v) == 0)
    & isValid v = (summary v != EmptyString)].
Proof.
move=> v; rewrite /v {v} /validateWorkflowDetailed /validateWorkflow.
case: ifP => // _.
have -> : (size edges == 0) = ~~ (0 < size edges) by rewrite lt0n negbK.
rewrite !size_filter_eq0.
move: (has (fun node => node_type node == "user_query") nodes) => hq.
move: (has (fun node => node_type node == "llm_engine") nodes) => hl.
move: (has (fun node => node_type node == "output") nodes) => ho.
move: (0 < size edges) => hc.
set llmErrors := forEachIndexed _ 0 [seq node <- nodes | node_type node == "llm_engine"].
have llmE : (size llmErrors == 0)
            = all hasApiKey [seq n <- nodes | node_type n == "llm_engine"].
  rewrite /llmErrors
    (forEachIndexed_nil (fun n => ~~ hasApiKey n)
       (fun i => "• LLM Engine node " ++ decimal i.+1 ++ ": Missing API key")).
  by apply: eq_all => n /=; rewrite negbK.
rewrite /= size_cat addn_eq0 llmE.

by case: hq; case: hl; case: ho; case: hc; case: (all _ _).
Qed.

Example detailed_needs_api_key :
  let ns := [:: Examples.node "q1" "user_query"; Examples.node "l1" "llm_engine";
                Examples.node "o1" "output"] in
  validateWorkflow ns Examples.chain = true
  /\ errors (validateWorkflowDetailed ns Examples.chain)
     = [:: "• LLM Engine node 1: Missing API key"].
Proof. by []. Qed.

(** Reading a property back after [{ ...o, k: v }]. *)
Lemma own_assign (props : seq (string * jsval)) (k k' : string) (v : jsval) :
  own (assign props k v) k' = if k' == k then Some v else own props k'.
Proof.
elim: props => [|[k0 v0] props IH] /=; first by rewrite eq_sym.
case: (k0 =P k) => [->|ne] /=; first by rewrite eq_sym; case: eqP.
rewrite IH; case: (k' =P k) => [->|//].
by case: eqP.
Qed.

Lemma get_assign (props : seq (string * jsval)) (k k' : string) (v : jsval) :
  get (assign props k v) k' = if k' == k then v else get props k'.
Proof. by rewrite /get own_assign; case: eqP. Qed.

(** The new version of one node, given the id of the output node found. *)
Definition refreshed (codeUnits : string -> seq string) (response : jsval)
    (nowISO : string) (outputId : string) (node : Node) : Node :=
  if node_id node == outputId then
    {| node_id := node_id node; node_type := node_type node;
       node_position := node_position node;
       node_data :=
         JObj (assign (spread codeUnits (node_data node)) "config"
           (JObj (assign (assign (assign
              (spread codeUnits (field (node_data node) "config"))
              "response" response)
              "lastUpdated" (JStr nowISO))
              "status" (JStr "completed")))) |}
  else node.

(** X23.  [updateOutputNode] rewrites the nodes that share the id of the
    first output node, and only their data: the configuration gets the
    response, the time and the status "completed"; every other key of the
    configuration, and every other key of the data, reads as before; all
    other nodes are untouched. *)
Theorem updateOutputNode_effect (codeUnits : string -> seq string)
    (response : jsval) (nowISO : string) (ns : seq Node) (o n : Node) :
  array_find (fun node => node_type node == "output") ns = Some o ->
  let n' := refreshed codeUnits response nowISO (node_id o) n in
  [/\ updateOutputNode codeUnits response nowISO ns
      = Some [seq refreshed codeUnits response nowISO (node_id o) m | m <- ns],
      (node_id n', node_type n', node_position n')
      = (node_id n, node_type n, node_position n)
      /\ (node_id n != node_id o -> n' = n),
      node_id n == node_id o ->
        [/\ field (field (node_data n') "config") "response" = response,
            field (field (node_data n') "config") "lastUpdated" = JStr nowISO
          & field (field (node_data n') "config") "status" = JStr "completed"]
    & node_id n == node_id o ->
      (forall props k, field (node_data n) "config" = JObj props ->
         k \notin [:: "response"; "lastUpdated"; "status"] ->
         field (field (node_data n') "config") k = get props k)
      /\ (forall props k, node_data n = JObj props -> k != "config" ->
            field (node_data n') k = get props k)].
Proof.
move=> found n'; rewrite /n' {n'} /updateOutputNode found /refreshed; split=> //.
- by case: ifP.
- by move=> ->; rewrite /= get_assign /= !get_assign.
- move=> ->; split=> [props k config_n|props k data_n ne_k].
    rewrite !inE !negb_or => /and3P [/negbTE r /negbTE l /negbTE st].
    by rewrite /= get_assign /= !get_assign st l r config_n.
  by rewrite /= get_assign (negbTE ne_k) data_n.
Qed.

Lemma updateOutputNode_effect_witness :
  let o := {| node_id := "o1"; node_type := "output"; node_position := None;
              node_data := JObj [:: ("label", JStr "Output");
                                    ("config", JObj [:: ("showSources", JBool true)])] |} in
  let ns := [:: Examples.node "q1" "user_query"; o] in
  let n' := refreshed (fun _ => [::]) (JStr "4") "2023-11-14T22:14:00.000Z" "o1" o in
  [/\ field (field (node_data n') "config") "response" = JStr "4",
      field (field (node_data n') "config") "showSources" = JBool true
    & field (node_data n') "label" = JStr "Output"].
Proof.
move=> o ns n'.
case: (@updateOutputNode_effect (fun _ => [::]) (JStr "4")
         "2023-11-14T22:14:00.000Z" ns o o (erefl _)) => _ _ written kept.
case: (written (eqxx _)) => resp _ _.
case: (kept (eqxx _)) => config_kept data_kept.
split; first exact: resp.
- exact: (config_kept [:: ("showSources", JBool true)] "showSources" (erefl _) (erefl _)).
- exact: (data_kept _ "label" (erefl _) (erefl _)).
Defined.

Lemma updateOutputNode_none (codeUnits : string -> seq string)
    (response : jsval) (nowISO : string) (ns : seq Node) :
  ~~ has (fun node => node_type node == "output") ns ->
  updateOutputNode codeUnits response nowISO ns = None.
Proof. by rewrite /updateOutputNode => /StoreFacts.array_find_none ->. Qed.

End ChatButtonFacts.

(** ** Follow-up questions of the chat page *)

Module ChatUIFacts.
Import ChatUI.

(** X24.  The chat page always offers two or three follow-up questions,
    never none and never more than three; when the answer mentions AI its
    two questions come first; when no topic is recognised the three general
    questions are offered. *)
Theorem generateFollowUpQuestions_count (lowered : string) :
  let questions := generateFollowUpQuestions lowered in
  [/\ 2 <= size questions <= 3,
      includes lowered "artificial intelligence" || includes lowered "ai" ->
        take 2 questions
        = [:: "How is AI being used in different industries?";
              "What are the ethical considerations of AI?"]
    & ~~ [|| includes lowered "artificial intelligence", includes lowered "ai",
             includes lowered "machine learning" | includes lowered "data"] ->
        questions
        = [:: "Can you explain this in more detail?";
              "What are some related topics?";
              "How can I learn more about this?"]].
Proof.
rewrite /= /generateFollowUpQuestions.
case: (includes lowered "artificial intelligence");
  case: (includes lowered "ai");
  case: (includes lowered "machine learning");
  by case: (includes lowered "data").
Qed.

Lemma generateFollowUpQuestions_count_witness :
  includes "the training data is small" "artificial intelligence"
    || includes "the training data is small" "ai"
  /\ size (generateFollowUpQuestions "the training data is small") = 3.
Proof.
split; first by [].
case: (generateFollowUpQuestions_count "the training data is small") => _ first_two _.
by move: (first_two (erefl _)).
Defined.

End ChatUIFacts.
